(** * Crime Unit Management System (lab6.py): a shallow embedding

    The program is a Streamlit script.  Its state is the session store
    (crimes, uploaded_files, officers) together with the upload directory on
    disk; every widget value, the clock and the UUID generator are inputs of
    the run.  The embedding passes all of these explicitly.

    Strings are Stdlib strings read as sequences of code points below 256
    (Latin-1 text); a Python [str] outside that range is not represented. *)

From Stdlib Require Import Ascii String NArith ZArith QArith.
From stdpp Require Import gmap strings list.

Local Open Scope N_scope.

#[local] Set Warnings "-clear-no-such-hyp".

(** ** Characters and strings, as Python's [str] methods treat them *)

Module Py.

(** [not s] on a string is true exactly for the empty string. *)
Definition truthy (s : string) : bool :=
  match s with
  | EmptyString => false
  | String _ _ => true
  end.

Definition LF : ascii := "010"%char.
Definition DQUOTE : ascii := "034"%char.

(** [str.isspace] on code points below 256: TAB..CR, FS..US, SPACE, NEL and
    NBSP.  This is the set [str.strip()] removes. *)
Definition isspace (c : ascii) : bool :=
  let n := N_of_ascii c in
  ((9 <=? n) && (n <=? 13)) || ((28 <=? n) && (n <=? 32))
  || (n =? 133) || (n =? 160).

Fixpoint lstrip (s : string) : string :=
  match s with
  | EmptyString => EmptyString
  | String c s' => if isspace c then lstrip s' else s
  end.

Fixpoint rstrip (s : string) : string :=
  match s with
  | EmptyString => EmptyString
  | String c s' =>
      match rstrip s' with
      | EmptyString => if isspace c then EmptyString else String c EmptyString
      | t => String c t
      end
  end.

Definition strip (s : string) : string := rstrip (lstrip s).

Definition len (s : string) : N := N.of_nat (String.length s).

(** Simple case mapping on code points below 256.  [lower] is total there;
    [upper] leaves the three letters whose upper case lies outside the range
    (micro sign, sharp s, y with diaeresis) unchanged. *)
Definition lower_char (c : ascii) : ascii :=
  let n := N_of_ascii c in
  if ((65 <=? n) && (n <=? 90))
     || ((192 <=? n) && (n <=? 222) && negb (n =? 215))
  then ascii_of_N (n + 32) else c.

Definition upper_char (c : ascii) : ascii :=
  let n := N_of_ascii c in
  if ((97 <=? n) && (n <=? 122))
     || ((224 <=? n) && (n <=? 254) && negb (n =? 247))
  then ascii_of_N (n - 32) else c.

Fixpoint map_chars (f : ascii -> ascii) (s : string) : string :=
  match s with
  | EmptyString => EmptyString
  | String c s' => String (f c) (map_chars f s')
  end.

Definition lower : string -> string := map_chars lower_char.
Definition upper : string -> string := map_chars upper_char.

(** Decimal digits. *)
Definition digit (n : N) : ascii := ascii_of_N (48 + n mod 10).

(** [str(n)] for a non-negative int. *)
Fixpoint str_N_aux (fuel : nat) (n : N) (acc : string) : string :=
  match fuel with
  | O => acc
  | S f =>
      let acc' := String (digit n) acc in
      if n <? 10 then acc' else str_N_aux f (n / 10) acc'
  end.

Definition str_N (n : N) : string :=
  str_N_aux (S (N.to_nat (N.log2 n))) n EmptyString.

(** ["%02d" % n], ["%04d" % n] and ["%06d" % n] for n below 100, 10000 and
    1000000 (wider numbers are not produced by a valid datetime). *)
Definition pad2 (n : N) : string :=
  String (digit (n / 10)) (String (digit n) EmptyString).

Definition pad4 (n : N) : string :=
  String (digit (n / 1000)) (String (digit (n / 100)) (pad2 n)).

Definition pad6 (n : N) : string :=
  String (digit (n / 100000)) (String (digit (n / 10000)) (pad4 n)).

(** Lower-case hexadecimal digits, as ['%x'] prints them. *)
Definition hexdigit (n : N) : ascii :=
  let d := n mod 16 in
  if d <? 10 then ascii_of_N (48 + d) else ascii_of_N (87 + d).

(** ['%0kx' % n], keeping the k low nibbles. *)
Fixpoint hex_fixed (k : nat) (n : N) (acc : string) : string :=
  match k with
  | O => acc
  | S k' => hex_fixed k' (n / 16) (String (hexdigit n) acc)
  end.

(** Slices [s[i:i+n]]. *)
Definition slice (i n : nat) (s : string) : string := String.substring i n s.

(** [sep.join(l)]. *)
Definition join (sep : string) (l : list string) : string :=
  String.concat sep l.

End Py.

(** ** Clock and UUID values *)

Record datetime := mk_datetime {
  year : N; month : N; day : N;
  hour : N; minute : N; second : N; microsecond : N
}.

Record date := mk_date { d_year : N; d_month : N; d_day : N }.

(** The range of field values of a Python datetime. *)
Definition datetime_ok (d : datetime) : bool :=
  (1 <=? year d) && (year d <=? 9999)
  && (1 <=? month d) && (month d <=? 12)
  && (1 <=? day d) && (day d <=? 31)
  && (hour d <=? 23) && (minute d <=? 59) && (second d <=? 59)
  && (microsecond d <=? 999999).

(** One [strftime] directive.  [%Y] prints the year as the C library does,
    without padding; the others are zero padded to two digits. *)
Definition directive (c : ascii) (d : datetime) : string :=
  if Ascii.eqb c "Y" then Py.str_N (year d)
  else if Ascii.eqb c "m" then Py.pad2 (month d)
  else if Ascii.eqb c "d" then Py.pad2 (day d)
  else if Ascii.eqb c "H" then Py.pad2 (hour d)
  else if Ascii.eqb c "M" then Py.pad2 (minute d)
  else if Ascii.eqb c "S" then Py.pad2 (second d)
  else String "%" (String c EmptyString).

Fixpoint strftime (fmt : string) (d : datetime) : string :=
  match fmt with
  | EmptyString => EmptyString
  | String c rest =>
      if Ascii.eqb c "%" then
        match rest with
        | EmptyString => String c EmptyString
        | String k rest' => directive k d +:+ strftime rest' d
        end
      else String c (strftime rest d)
  end.

Definition datetime_of_date (d : date) : datetime :=
  mk_datetime (d_year d) (d_month d) (d_day d) 0 0 0 0.

Definition date_strftime (fmt : string) (d : date) : string :=
  strftime fmt (datetime_of_date d).

(** [datetime.isoformat()]: the microseconds are printed only when non-zero. *)
Definition isoformat (d : datetime) : string :=
  Py.pad4 (year d) +:+ "-" +:+ Py.pad2 (month d) +:+ "-" +:+ Py.pad2 (day d)
  +:+ "T" +:+ Py.pad2 (hour d) +:+ ":" +:+ Py.pad2 (minute d)
  +:+ ":" +:+ Py.pad2 (second d)
  +:+ (if microsecond d =? 0 then "" else "." +:+ Py.pad6 (microsecond d)).

(** A UUID is its 128-bit integer; [str(uuid)] prints 32 hexadecimal digits
    in groups of 8-4-4-4-12. *)
Definition uuid := N.

Definition str_uuid (u : uuid) : string :=
  let h := Py.hex_fixed 32 u EmptyString in
  Py.slice 0 8 h +:+ "-" +:+ Py.slice 8 4 h +:+ "-" +:+ Py.slice 12 4 h
  +:+ "-" +:+ Py.slice 16 4 h +:+ "-" +:+ Py.slice 20 12 h.

(** ** lab6.py, lines 32-49 *)

Definition CRIME_TYPES : list string :=
  ["Theft"; "Murder"; "Assault"; "Cybercrime"; "Fraud"; "Burglary";
   "Drug Offense"; "Vandalism"; "Domestic Violence"; "Other"].
Definition STATUSES : list string :=
  ["Open"; "Under Investigation"; "Closed"; "Cold Case"; "Pending Review"].
Definition PRIORITIES : list string := ["Low"; "Medium"; "High"; "Critical"].

Definition generate_crime_id (now : datetime) (u : uuid) : string :=
  "CASE-" +:+ strftime "%Y%m%d" now +:+ "-"
  +:+ Py.upper (Py.slice 0 6 (str_uuid u)).

Definition validate_form_data
    (crime_type location officer description : string) : list string :=
  let errors := [] in
  let errors :=
    if negb (Py.truthy crime_type)
    then errors ++ ["Crime type is required"] else errors in
  let errors :=
    if negb (Py.truthy location) || (Py.len (Py.strip location) <? 2)
    then errors ++ ["Location must be at least 2 characters long"]
    else errors in
  let errors :=
    if negb (Py.truthy officer)
    then errors ++ ["Officer assignment is required"] else errors in
  let errors :=
    if negb (Py.truthy description) || (Py.len (Py.strip description) <? 10)
    then errors ++ ["Description must be at least 10 characters long"]
    else errors in
  errors.

(** ** The record store (lab6.py, lines 22-30 and 126-138) *)

(** The dictionary built at lines 126-138, one field per key. *)
Record crime_record := mk_crime {
  ID : string;
  Type_ : string;
  Location : string;
  Officer : string;
  Status : string;
  Priority : string;
  Description : string;
  Notes : string;
  Date_Registered : string;
  Incident_Date : string;
  Files : N
}.

(** A value held under a key of the dictionary. *)
Inductive value :=
  | VStr (s : string)
  | VInt (n : N).

Definition str_value (v : value) : string :=
  match v with
  | VStr s => s
  | VInt n => Py.str_N n
  end.

(** The keys and values of a record, in insertion order. *)
Definition items (r : crime_record) : list (string * value) :=
  [("ID", VStr (ID r)); ("Type", VStr (Type_ r));
   ("Location", VStr (Location r)); ("Officer", VStr (Officer r));
   ("Status", VStr (Status r)); ("Priority", VStr (Priority r));
   ("Description", VStr (Description r)); ("Notes", VStr (Notes r));
   ("Date_Registered", VStr (Date_Registered r));
   ("Incident_Date", VStr (Incident_Date r)); ("Files", VInt (Files r))].

(** [st.session_state] before [initialize_session_state]: each of the three
    keys may be absent. *)
Record session_dict := mk_session_dict {
  crimes_key : option (list crime_record);
  uploaded_files_key : option (gmap string (list string));
  officers_key : option (list string)
}.

(** [st.session_state] once the three keys exist. *)
Record session_state := mk_session {
  crimes : list crime_record;
  uploaded_files : gmap string (list string);
  officers : list string
}.

Definition default_officers : list string :=
  ["Officer Smith"; "Officer Johnson"; "Officer Brown"; "Officer Davis";
   "Officer Wilson"].

Definition initialize_session_state (d : session_dict) : session_state :=
  {| crimes := match crimes_key d with Some c => c | None => [] end;
     uploaded_files :=
       match uploaded_files_key d with Some u => u | None => ∅ end;
     officers :=
       match officers_key d with Some o => o | None => default_officers end |}.

Definition new_session : session_state :=
  initialize_session_state (mk_session_dict None None None).

(** The upload directory: the directories that exist and the content of
    each file, by path. *)
Record filesystem := mk_fs {
  dirs : gset string;
  files : gmap string (list Byte.byte)
}.

Record world := mk_world {
  session : session_state;
  disk : filesystem
}.

(** ** Officer management (sidebar, lines 74-80) *)

(** What a run shows: the texts passed to [st.success], [st.warning] and
    [st.error], without the emoji and the emphasis marks that decorate
    them in the source. *)
Inductive notice :=
  | st_success (msg : string)
  | st_warning (msg : string)
  | st_error (msg : string).

Definition add_officer (button : bool) (new_officer : string)
    (st : session_state) : session_state * list notice :=
  if button && Py.truthy new_officer then
    if negb (bool_decide (new_officer ∈ officers st)) then
      ({| crimes := crimes st;
          uploaded_files := uploaded_files st;
          officers := officers st ++ [new_officer] |},
       [st_success ("Officer " +:+ new_officer +:+ " added!")])
    else (st, [st_warning "Officer already exists!"])
  else (st, []).

(** ** Registration (add_crime, lines 83-141) *)

Record uploaded_file := mk_upload {
  name : string;
  content : list Byte.byte
}.

(** The values of the widgets of the form on one run. *)
Record crime_form := mk_form {
  crime_type : string;
  location : string;
  priority : string;
  officer : string;
  status : string;
  incident_date : date;
  description : string;
  file_upload : list uploaded_file;
  notes : string;
  submitted : bool
}.

Definition makedirs (d : string) (fs : filesystem) : filesystem :=
  {| dirs := {[d]} ∪ dirs fs; files := files fs |}.

Definition write_file (path : string) (data : list Byte.byte)
    (fs : filesystem) : filesystem :=
  {| dirs := dirs fs; files := <[path := data]> (files fs) |}.

(** The loop of lines 119-123: every file is written under
    [uploads/<crime_id>_<name>] and its path is collected. *)
Fixpoint store_uploads (crime_id : string) (ups : list uploaded_file)
    (fs : filesystem) (uploaded : list string) : filesystem * list string :=
  match ups with
  | [] => (fs, uploaded)
  | up :: ups' =>
      let file_name := "uploads/" +:+ crime_id +:+ "_" +:+ name up in
      store_uploads crime_id ups' (write_file file_name (content up) fs)
        (uploaded ++ [file_name])
  end.

Definition add_crime (form : crime_form) (now_id : datetime) (u : uuid)
    (now_reg : datetime) (w : world) : world * list notice :=
  if submitted form then
    let errors :=
      validate_form_data (crime_type form) (location form) (officer form)
        (description form) in
    match errors with
    | _ :: _ => (w, map st_error errors)
    | [] =>
        let crime_id := generate_crime_id now_id u in
        let '(fs, index, uploaded) :=
          match file_upload form with
          | [] => (disk w, uploaded_files (session w), [])
          | _ :: _ =>
              let '(fs, uploaded) :=
                store_uploads crime_id (file_upload form)
                  (makedirs "uploads" (disk w)) [] in
              (fs, <[crime_id := uploaded]> (uploaded_files (session w)),
               uploaded)
          end in
        let crime_record :=
          {| ID := crime_id;
             Type_ := crime_type form;
             Location := location form;
             Officer := officer form;
             Status := status form;
             Priority := priority form;
             Description := description form;
             Notes := notes form;
             Date_Registered := strftime "%Y-%m-%d %H:%M:%S" now_reg;
             Incident_Date := date_strftime "%Y-%m-%d" (incident_date form);
             Files :=
               match uploaded with
               | [] => 0
               | _ :: _ => N.of_nat (length uploaded)
               end |} in
        ({| session :=
              {| crimes := crimes (session w) ++ [crime_record];
                 uploaded_files := index;
                 officers := officers (session w) |};
            disk := fs |},
         [st_success ("Case successfully registered with ID: " +:+ crime_id)])
    end
  else (w, []).

(** ** Settings tab (lines 359-379) *)

(** The clear-all button and its confirmation checkbox, both widget values
    of the run. *)
Definition clear_all_data (button checkbox : bool) (st : session_state)
    : session_state :=
  if button then
    if checkbox then
      {| crimes := []; uploaded_files := ∅; officers := officers st |}
    else st
  else st.

(** ** Regular expressions: the fragment of Python's [re] modelled here

    [Series.str.contains(pat, case=False)] compiles [pat] with
    [re.IGNORECASE] and searches every element with it.  The fragment covers
    ordinary characters, the dot, a backslash before a character that is not
    an ASCII letter or digit, and one of the quantifiers [*], [+], [?] after
    such an atom.  Any other pattern ([re] rejects some, the others use
    constructs left out here) compiles to [None]: the embedding says
    nothing about the run on such a search text. *)

Module Re.

Inductive atom :=
  | Lit (c : ascii)
  | AnyChar.

Inductive quant := One | Opt | Star | Plus.

Definition pattern := list (atom * quant).

(** The characters with a meaning of their own in a pattern. *)
Definition special (c : ascii) : bool :=
  existsb (Ascii.eqb c)
    ["."; "\"; "["; "{"; "("; ")"; "*"; "+"; "?"; "^"; "$"; "|"]%char.

Definition ascii_alnum (c : ascii) : bool :=
  let n := N_of_ascii c in
  ((48 <=? n) && (n <=? 57)) || ((65 <=? n) && (n <=? 90))
  || ((97 <=? n) && (n <=? 122)).

Definition quant_of (c : ascii) : option quant :=
  if Ascii.eqb c "*" then Some Star
  else if Ascii.eqb c "+" then Some Plus
  else if Ascii.eqb c "?" then Some Opt
  else None.

(** Reads one atom at the head of the pattern. *)
Definition read_atom (s : string) : option (atom * string) :=
  match s with
  | EmptyString => None
  | String c rest =>
      if Ascii.eqb c "\" then
        match rest with
        | String e rest' =>
            if ascii_alnum e then None else Some (Lit e, rest')
        | EmptyString => None
        end
      else if Ascii.eqb c "." then Some (AnyChar, rest)
      else if special c then None
      else Some (Lit c, rest)
  end.

Fixpoint compile_aux (fuel : nat) (s : string) : option pattern :=
  match fuel with
  | O => match s with EmptyString => Some [] | _ => None end
  | S fuel' =>
      match s with
      | EmptyString => Some []
      | _ =>
          match read_atom s with
          | None => None
          | Some (a, rest) =>
              match rest with
              | String q rest' =>
                  match quant_of q with
                  | Some k => cons (a, k) <$> compile_aux fuel' rest'
                  | None => cons (a, One) <$> compile_aux fuel' rest
                  end
              | EmptyString => Some [(a, One)]
              end
          end
      end
  end.

Definition compile (s : string) : option pattern :=
  compile_aux (String.length s) s.

(** Matching under [re.IGNORECASE]; the dot matches all but a line feed. *)
Definition atom_matches (a : atom) (c : ascii) : bool :=
  match a with
  | Lit x => Ascii.eqb (Py.lower_char x) (Py.lower_char c)
  | AnyChar => negb (Ascii.eqb c Py.LF)
  end.

(** Zero or more characters matched by [a], then the continuation [k]. *)
Fixpoint star_loop (a : atom) (k : string -> bool) (t : string) : bool :=
  k t ||
  match t with
  | String c t' => atom_matches a c && star_loop a k t'
  | EmptyString => false
  end.

(** Does the pattern match at the start of [t]? *)
Fixpoint match_here (p : pattern) (t : string) : bool :=
  match p with
  | [] => true
  | (a, One) :: p' =>
      match t with
      | String c t' => atom_matches a c && match_here p' t'
      | EmptyString => false
      end
  | (a, Opt) :: p' =>
      match_here p' t ||
      match t with
      | String c t' => atom_matches a c && match_here p' t'
      | EmptyString => false
      end
  | (a, Star) :: p' => star_loop a (match_here p') t
  | (a, Plus) :: p' =>
      match t with
      | String c t' => atom_matches a c && star_loop a (match_here p') t'
      | EmptyString => false
      end
  end.

(** [regex.search(t)] as a truth value: a match at some position. *)
Fixpoint search (p : pattern) (t : string) : bool :=
  match_here p t ||
  match t with
  | String _ t' => search p t'
  | EmptyString => false
  end.

End Re.

(** ** The query engine (view_crimes, lines 186-210) *)

(** Why a run yields no rows.  [date_parse_error] is an exception of the
    program.  [outside_fragment] is not: it marks a search text whose
    pattern the embedding does not model, on which the program either
    raises [re.error] or returns rows that are not described here. *)
Inductive exn :=
  | outside_fragment (pat : string)
  | date_parse_error (text : string).

Inductive result (A : Type) :=
  | Ok (a : A)
  | Raise (e : exn).
Arguments Ok {A} a.
Arguments Raise {A} e.

(** An exception raised by a step ends the run of the steps after it. *)
#[global] Instance result_bind : MBind result :=
  fun A B f m =>
    match m with
    | Ok a => f a
    | Raise e => Raise e
    end.

(** The truth value of a list: non-empty. *)
Definition nonempty {A} (l : list A) : bool :=
  match l with
  | [] => false
  | _ :: _ => true
  end.

(** The mask of line 189 for one row: some column, as a string, contains a
    match of the compiled search text. *)
Definition row_mask (p : Re.pattern) (r : crime_record) : bool :=
  existsb (fun kv => Re.search p (str_value (snd kv))) (items r).

Definition isin (x : string) (values : list string) : bool :=
  existsb (String.eqb x) values.

Definition is_digit (c : ascii) : bool :=
  let n := N_of_ascii c in (48 <=? n) && (n <=? 57).

Definition digit_val (c : ascii) : N := N_of_ascii c - 48.

(** [pd.to_datetime] on the text written by [strftime("%Y-%m-%d")]: four
    digits, two digits, two digits.  Other texts are reported as errors;
    the calendar and the bounds of pandas' timestamps are not modelled. *)
Definition to_datetime (s : string) : option date :=
  match s with
  | String y1 (String y2 (String y3 (String y4 (String h1
      (String m1 (String m2 (String h2 (String d1 (String d2 EmptyString)))))))))
    =>
      if forallb is_digit [y1; y2; y3; y4; m1; m2; d1; d2]
         && Ascii.eqb h1 "-" && Ascii.eqb h2 "-"
      then Some (mk_date
                   (1000 * digit_val y1 + 100 * digit_val y2
                    + 10 * digit_val y3 + digit_val y4)
                   (10 * digit_val m1 + digit_val m2)
                   (10 * digit_val d1 + digit_val d2))
      else None
  | _ => None
  end.

Definition date_leb (a b : date) : bool :=
  (d_year a <? d_year b)
  || ((d_year a =? d_year b)
      && ((d_month a <? d_month b)
          || ((d_month a =? d_month b) && (d_day a <=? d_day b)))).

(** Lines 206-210: the incident dates are parsed, then the rows in the
    inclusive range are kept. *)
Fixpoint filter_dates (start_date end_date : date) (df : list crime_record)
    : result (list crime_record) :=
  match df with
  | [] => Ok []
  | r :: df' =>
      match to_datetime (Incident_Date r) with
      | None => Raise (date_parse_error (Incident_Date r))
      | Some d =>
          rest ← filter_dates start_date end_date df';
          Ok (if date_leb start_date d && date_leb d end_date
              then r :: rest else rest)
      end
  end.

Definition apply_filters (search_text : string)
    (crime_type_filter status_filter priority_filter officer_filter
       : list string)
    (date_range : list date) (df : list crime_record)
    : result (list crime_record) :=
  let filtered_df := df in
  filtered_df ←
    (if Py.truthy search_text then
       match Re.compile search_text with
       | None => Raise (outside_fragment search_text)
       | Some p => Ok (filter (fun r => row_mask p r = true) filtered_df)
       end
     else Ok filtered_df);
  let filtered_df :=
    if nonempty crime_type_filter
    then filter (fun r => isin (Type_ r) crime_type_filter = true) filtered_df
    else filtered_df in
  let filtered_df :=
    if nonempty status_filter
    then filter (fun r => isin (Status r) status_filter = true) filtered_df
    else filtered_df in
  let filtered_df :=
    if nonempty priority_filter
    then filter (fun r => isin (Priority r) priority_filter = true) filtered_df
    else filtered_df in
  let filtered_df :=
    if nonempty officer_filter
    then filter (fun r => isin (Officer r) officer_filter = true) filtered_df
    else filtered_df in
  match date_range with
  | [start_date; end_date] => filter_dates start_date end_date filtered_df
  | _ => Ok filtered_df
  end.

(** [view_crimes] shows a warning and stops when the store is empty
    (lines 165-167); otherwise it shows the filtered rows. *)
Definition view_crimes (search_text : string)
    (crime_type_filter status_filter priority_filter officer_filter
       : list string)
    (date_range : list date) (st : session_state)
    : result (option (list crime_record)) :=
  match crimes st with
  | [] => Ok None
  | _ :: _ =>
      match apply_filters search_text crime_type_filter status_filter
              priority_filter officer_filter date_range (crimes st) with
      | Ok rows => Ok (Some rows)
      | Raise e => Raise e
      end
  end.

(** ** CSV export (export_to_csv, lines 51-55) *)

(** A frame: the column labels and, per row, one cell per column. *)
Record DataFrame := mk_frame {
  columns : list string;
  cells : list (list value)
}.

(** [pd.DataFrame(data)] for a list of records: the columns are the keys of
    the records; an empty list gives a frame without columns.  (After a
    date-range filter the incident dates reach the export as timestamps at
    midnight, which are written as the same YYYY-MM-DD text.) *)
Definition DataFrame_of (data : list crime_record) : DataFrame :=
  {| columns := match data with
                | [] => []
                | r :: _ => map fst (items r)
                end;
     cells := map (fun r => map snd (items r)) data |}.

(** [df.empty]: one of the axes has length 0. *)
Definition empty (df : DataFrame) : bool :=
  match columns df, cells df with
  | [], _ | _, [] => true
  | _, _ => false
  end.

(** Keeps, in a row laid out as [cols], the cells of the columns not in
    [labels]. *)
Fixpoint drop_cells {A} (labels cols : list string) (row : list A) : list A :=
  match cols, row with
  | c :: cols', x :: row' =>
      if isin c labels then drop_cells labels cols' row'
      else x :: drop_cells labels cols' row'
  | _, _ => []
  end.

(** [df.drop(columns=labels, errors='ignore')]. *)
Definition drop (labels : list string) (df : DataFrame) : DataFrame :=
  {| columns := drop_cells labels (columns df) (columns df);
     cells := map (drop_cells labels (columns df)) (cells df) |}.

(** The csv writer under [QUOTE_MINIMAL], with the line terminator LF that
    pandas passes on POSIX: a field holding the delimiter, the quote
    character or the terminator is quoted, quotes inside it doubled. *)
Definition needs_quote (s : string) : bool :=
  existsb (fun c => existsb (Ascii.eqb c) [","%char; Py.DQUOTE; Py.LF])
    (list_ascii_of_string s).

Fixpoint double_quotes (s : string) : string :=
  match s with
  | EmptyString => EmptyString
  | String c s' =>
      if Ascii.eqb c Py.DQUOTE
      then String c (String c (double_quotes s'))
      else String c (double_quotes s')
  end.

Definition quote_field (s : string) : string :=
  if needs_quote s
  then String Py.DQUOTE (double_quotes s) +:+ String Py.DQUOTE EmptyString
  else s.

Definition csv_line (fields : list string) : string :=
  Py.join "," (map quote_field fields) +:+ String Py.LF EmptyString.

(** [df.to_csv(index=False)]: the header, then one line per row. *)
Definition to_csv (df : DataFrame) : string :=
  csv_line (columns df)
  +:+ Py.join "" (map (fun row => csv_line (map str_value row)) (cells df)).

(** [s.encode('utf-8')] on code points below 256. *)
Definition utf8_char (c : ascii) : list N :=
  let n := N_of_ascii c in
  if n <? 128 then [n] else [192 + n / 64; 128 + n mod 64].

Definition encode_utf8 (s : string) : list N :=
  flat_map utf8_char (list_ascii_of_string s).

Definition export_frame (data : list crime_record) : DataFrame :=
  let df := DataFrame_of data in
  if negb (empty df) then drop ["File"] df else df.

Definition export_to_csv (data : list crime_record) : list N :=
  encode_utf8 (to_csv (export_frame data)).

(** The lines of a text are counted by their terminators. *)
Definition count_lines (bytes : list N) : nat :=
  length (filter (fun b => b = 10) bytes).

(** ** JSON backup (lines 366-379) *)

#[warnings="-register-all"] Inductive json :=
  | JString (s : string)
  | JInt (n : N)
  | JArray (l : list json)
  | JObject (members : list (string * json)).

Definition json_of_value (v : value) : json :=
  match v with
  | VStr s => JString s
  | VInt n => JInt n
  end.

Definition json_of_record (r : crime_record) : json :=
  JObject (map (fun kv => (fst kv, json_of_value (snd kv))) (items r)).

(** The dictionary handed to [json.dumps]; nothing is offered for download
    while the store is empty. *)
Definition backup_data (now : datetime) (st : session_state) : option json :=
  match crimes st with
  | [] => None
  | _ :: _ =>
      Some (JObject
              [("crimes", JArray (map json_of_record (crimes st)));
               ("officers", JArray (map JString (officers st)));
               ("export_date", JString (isoformat now))])
  end.

Definition keys (j : json) : list string :=
  match j with
  | JObject members => map fst members
  | _ => []
  end.

(** ** Statistics (crime_statistics, line 284) *)

(** [Series.unique()]: the distinct values in order of first appearance. *)
Fixpoint unique_from (seen : list string) (l : list string) : list string :=
  match l with
  | [] => []
  | x :: l' =>
      if isin x seen then unique_from seen l'
      else x :: unique_from (x :: seen) l'
  end.

Definition unique (l : list string) : list string := unique_from [] l.

(** [len(df) / len(df['Officer'].unique()) if len(...) > 0 else 0] on the
    frame of line 271.  That frame has at least one row, its first and the
    others: lines 267-269 return before it is built from an empty store,
    and a frame built from no record would have no column [Officer] to
    read.  The quotient is exact here; Python rounds it to the nearest
    double. *)
Definition avg_cases_per_officer (r : crime_record) (rs : list crime_record)
    : Q :=
  let df := r :: rs in
  let n := length (unique (map Officer df)) in
  if (0 <? n)%nat
  then (inject_Z (Z.of_nat (length df)) / inject_Z (Z.of_nat n))%Q
  else 0%Q.

(** The dashboard stops with a warning while the store is empty
    (lines 267-269): no statistic is computed then. *)
Definition crime_statistics (st : session_state) : option Q :=
  match crimes st with
  | [] => None
  | r :: rs => Some (avg_cases_per_officer r rs)
  end.

(** ** The rules of the specification, for comparison with the code *)

Inductive field := F_crime_type | F_location | F_officer | F_description.

Definition all_fields : list field :=
  [F_crime_type; F_location; F_officer; F_description].

Definition field_name (f : field) : string :=
  match f with
  | F_crime_type => "Crime type"
  | F_location => "Location"
  | F_officer => "Officer"
  | F_description => "Description"
  end.

Definition message_of (f : field) : string :=
  match f with
  | F_crime_type => "Crime type is required"
  | F_location => "Location must be at least 2 characters long"
  | F_officer => "Officer assignment is required"
  | F_description => "Description must be at least 10 characters long"
  end.

(** Section 4.1 of the specification: a field is non-empty and, for the
    location and the description, long enough once trimmed. *)
Definition rule (f : field) (ct loc off desc : string) : Prop :=
  match f with
  | F_crime_type => ct ≠ ""
  | F_location => loc ≠ "" ∧ (2 <= String.length (Py.strip loc))%nat
  | F_officer => off ≠ ""
  | F_description => desc ≠ "" ∧ (10 <= String.length (Py.strip desc))%nat
  end.

#[global] Instance rule_dec f ct loc off desc :
  Decision (rule f ct loc off desc).
Proof. destruct f; simpl; apply _. Defined.

Definition rule_b (f : field) (ct loc off desc : string) : bool :=
  match f with
  | F_crime_type => negb (String.eqb ct "")
  | F_location =>
      negb (String.eqb loc "") && (2 <=? String.length (Py.strip loc))%nat
  | F_officer => negb (String.eqb off "")
  | F_description =>
      negb (String.eqb desc "") && (10 <=? String.length (Py.strip desc))%nat
  end.

(** A message names a field when it starts with the field's name. *)
Definition names_field (msg : string) (f : field) : bool :=
  String.prefix (field_name f) msg.

(** The identifier format of the specification: the prefix [CASE-], eight
    decimal digits, a hyphen, six characters that are upper-case letters or
    digits. *)
Fixpoint all_chars (p : ascii → bool) (s : string) : bool :=
  match s with
  | EmptyString => true
  | String c s' => p c && all_chars p s'
  end.

Definition is_upper_alnum (c : ascii) : bool :=
  let n := N_of_ascii c in
  ((48 <=? n) && (n <=? 57)) || ((65 <=? n) && (n <=? 90)).

Definition matches_id_format (s : string) : bool :=
  (String.length s =? 20)%nat
  && String.prefix "CASE-" s
  && all_chars is_digit (Py.slice 5 8 s)
  && String.eqb (Py.slice 13 1 s) "-"
  && all_chars is_upper_alnum (Py.slice 14 6 s).

(** Containment of [s] in [text] as plain text, letter case apart: the
    reading of the free-text search in the specification. *)
Definition contains_ci (text s : string) : Prop :=
  ∃ pre post, Py.lower text = pre +:+ Py.lower s +:+ post.

Fixpoint prefix_ci (s t : string) : bool :=
  match s, t with
  | EmptyString, _ => true
  | String a s', String c t' =>
      Ascii.eqb (Py.lower_char a) (Py.lower_char c) && prefix_ci s' t'
  | String _ _, EmptyString => false
  end.

Fixpoint contains_cib (s t : string) : bool :=
  prefix_ci s t ||
  match t with
  | String _ t' => contains_cib s t'
  | EmptyString => false
  end.

(** Some field of the record, in its string form, contains [s]. *)
Definition literal_hit (s : string) (r : crime_record) : Prop :=
  Exists (fun kv => contains_ci (str_value kv.2) s) (items r).

Definition literal_hitb (s : string) (r : crime_record) : bool :=
  existsb (fun kv => contains_cib s (str_value (snd kv))) (items r).

(** The pattern of a text without special characters: its characters. *)
Definition literal_pattern (s : string) : Re.pattern :=
  map (fun c => (Re.Lit c, Re.One)) (list_ascii_of_string s).

Definition plain_text (s : string) : bool :=
  all_chars (fun c => negb (Re.special c)) s.

(** The shape of an ISO-8601 timestamp as [isoformat] prints it:
    YYYY-MM-DDTHH:MM:SS, optionally followed by a dot and six digits. *)
Definition is_iso8601 (s : string) : bool :=
  all_chars is_digit (Py.slice 0 4 s)
  && String.eqb (Py.slice 4 1 s) "-"
  && all_chars is_digit (Py.slice 5 2 s)
  && String.eqb (Py.slice 7 1 s) "-"
  && all_chars is_digit (Py.slice 8 2 s)
  && String.eqb (Py.slice 10 1 s) "T"
  && all_chars is_digit (Py.slice 11 2 s)
  && String.eqb (Py.slice 13 1 s) ":"
  && all_chars is_digit (Py.slice 14 2 s)
  && String.eqb (Py.slice 16 1 s) ":"
  && all_chars is_digit (Py.slice 17 2 s)
  && ((String.length s =? 19)%nat
      || ((String.length s =? 26)%nat
          && String.eqb (Py.slice 19 1 s) "."
          && all_chars is_digit (Py.slice 20 6 s))).

(** Line feeds in a text. *)
Fixpoint count_lf (s : string) : nat :=
  match s with
  | EmptyString => 0
  | String c s' => (if Ascii.eqb c Py.LF then 1 else 0) + count_lf s'
  end.

(** Line feeds in the field values of a record. *)
Definition record_lfs (r : crime_record) : nat :=
  sum_list (map (fun kv => count_lf (str_value kv.2)) (items r)).

(** ** The scenario of section 8 of the specification *)

Definition sample_now : datetime := mk_datetime 2024 3 7 10 11 12 0.
Definition sample_uuid : uuid := 0xabcdef0123456789abcdef0123456789.

Definition sample_form : crime_form :=
  {| crime_type := "Theft"; location := "5th Ave"; priority := "Medium";
     officer := "Officer Smith"; status := "Open";
     incident_date := mk_date 2024 3 6;
     description := "Stolen bicycle from porch";
     file_upload := []; notes := ""; submitted := true |}.

Definition short_form : crime_form :=
  {| crime_type := "Theft"; location := "5th Ave"; priority := "Medium";
     officer := "Officer Smith"; status := "Open";
     incident_date := mk_date 2024 3 6;
     description := "short";
     file_upload := [mk_upload "photo.jpg" []]; notes := "";
     submitted := true |}.

Definition sample_world : world :=
  {| session := new_session; disk := {| dirs := ∅; files := ∅ |} |}.

Definition sample_record : crime_record :=
  mk_crime "CASE-20240307-ABCDEF" "Theft" "5th Ave" "Officer Smith" "Open"
    "Medium" "Stolen bicycle from porch" "" "2024-03-07 10:11:12"
    "2024-03-06" 0.

(** Four records over two officers. *)
Definition four_records : list crime_record :=
  let by_officer o :=
    mk_crime "CASE-20240307-ABCDEF" "Theft" "5th Ave" o "Open" "Medium"
      "Stolen bicycle from porch" "" "2024-03-07 10:11:12" "2024-03-06" 0 in
  [by_officer "Officer Smith"; by_officer "Officer Brown";
   by_officer "Officer Smith"; by_officer "Officer Brown"].

Definition sample_state : session_state :=
  {| crimes := [sample_record]; uploaded_files := ∅;
     officers := default_officers |}.

(** The distinct officer values appearing in the records, as a set. *)
Definition officer_set (df : list crime_record) : gset string :=
  list_to_set (map Officer df).

(** ** Sidebar quick stats (lines 59-71) *)

(** Total, open and closed cases; nothing is shown for an empty store. *)
Definition quick_stats (st : session_state) : option (nat * nat * nat) :=
  let total_cases := length (crimes st) in
  if (0 <? total_cases)%nat then
    let df_temp := crimes st in
    let open_cases := length (filter (fun r => Status r = "Open") df_temp) in
    let closed_cases :=
      length (filter (fun r => Status r = "Closed") df_temp) in
    Some (total_cases, open_cases, closed_cases)
  else None.

(** ** Dashboard counts (crime_statistics, lines 276-333) *)

(** [Series.value_counts()] as the mapping from each value to the number
    of its occurrences; the order in which pandas lists the entries is
    left out. *)
Definition value_counts (l : list string) : gmap string nat :=
  foldr (fun x m => <[x := S (default 0%nat (m !! x))]> m) ∅ l.

Record metrics := mk_metrics {
  total_cases : nat;
  open_cases : nat;
  open_delta : Q;
  high_priority : nat;
  avg_cases : Q;
  status_counts : gmap string nat;
  priority_counts : gmap string nat;
  type_counts : gmap string nat;
  officer_counts : gmap string nat
}.

(** The four metrics of lines 275-285 and the four tables of counts of
    lines 291-310; the percentage is kept as an exact rational. *)
Definition crime_metrics (st : session_state) : option metrics :=
  match crimes st with
  | [] => None
  | r :: rs =>
      let df := r :: rs in
      let open_cases := length (filter (fun r => Status r = "Open") df) in
      Some {| total_cases := length df;
              open_cases := open_cases;
              open_delta :=
                (inject_Z (Z.of_nat open_cases)
                 / inject_Z (Z.of_nat (length df)) * 100)%Q;
              high_priority :=
                length (filter (fun r => Priority r = "High") df);
              avg_cases := avg_cases_per_officer r rs;
              status_counts := value_counts (map Status df);
              priority_counts := value_counts (map Priority df);
              type_counts := value_counts (map Type_ df);
              officer_counts := value_counts (map Officer df) |}
  end.

(** ** Runs of the script *)

(** What one interaction can do to the state: the sidebar button, the
    form's submit button, the clear button. *)
Inductive action :=
  | AddOfficer (button : bool) (new_officer : string)
  | SubmitCase (form : crime_form) (now_id : datetime) (u : uuid)
      (now_reg : datetime)
  | ClearAll (button checkbox : bool).

Definition step (w : world) (a : action) : world :=
  match a with
  | AddOfficer button new_officer =>
      {| session := (add_officer button new_officer (session w)).1;
         disk := disk w |}
  | SubmitCase form now_id u now_reg => (add_crime form now_id u now_reg w).1
  | ClearAll button checkbox =>
      {| session := clear_all_data button checkbox (session w);
         disk := disk w |}
  end.

Definition run (acts : list action) (w : world) : world := foldl step w acts.

(** A session that starts on a disk [fs]. *)
Definition start (fs : filesystem) : world :=
  {| session := new_session; disk := fs |}.

(** ** Notions used to state the behaviour of the code *)

(** The path a file of a case is written to (line 120). *)
Definition upload_path (crime_id : string) (file : string) : string :=
  "uploads/" +:+ crime_id +:+ "_" +:+ file.

(** The content of the last upload written to [path], if any. *)
Fixpoint last_written (crime_id : string) (ups : list uploaded_file)
    (path : string) : option (list Byte.byte) :=
  match ups with
  | [] => None
  | up :: ups' =>
      match last_written crime_id ups' path with
      | Some c => Some c
      | None =>
          if String.eqb (upload_path crime_id (name up)) path
          then Some (content up) else None
      end
  end.

(** The 24 leading bits of a 128-bit UUID. *)
Definition leading_bits (u : uuid) : N := (u / 2 ^ 104) mod 2 ^ 24.

(** The conjunction of the filters of lines 188-210 on one row, given the
    compiled search text, if there is one. *)
Definition selected (p : option Re.pattern)
    (crime_type_filter status_filter priority_filter officer_filter
       : list string)
    (date_range : list date) (r : crime_record) : bool :=
  match p with Some p => row_mask p r | None => true end
  && (negb (nonempty crime_type_filter) || isin (Type_ r) crime_type_filter)
  && (negb (nonempty status_filter) || isin (Status r) status_filter)
  && (negb (nonempty priority_filter) || isin (Priority r) priority_filter)
  && (negb (nonempty officer_filter) || isin (Officer r) officer_filter)
  && match date_range with
     | [start_date; end_date] =>
         match to_datetime (Incident_Date r) with
         | Some d => date_leb start_date d && date_leb d end_date
         | None => false
         end
     | _ => true
     end.


(** The record appended by a registration (lines 126-138), given the
    identifier and the paths of the stored uploads. *)
Definition registered_record (form : crime_form) (crime_id : string)
    (now_reg : datetime) (uploaded : list string) : crime_record :=
  {| ID := crime_id;
     Type_ := crime_type form;
     Location := location form;
     Officer := officer form;
     Status := status form;
     Priority := priority form;
     Description := description form;
     Notes := notes form;
     Date_Registered := strftime "%Y-%m-%d %H:%M:%S" now_reg;
     Incident_Date := date_strftime "%Y-%m-%d" (incident_date form);
     Files := N.of_nat (length uploaded) |}.

(** The form passes validation. *)
Definition valid_form (form : crime_form) : Prop :=
  validate_form_data (crime_type form) (location form) (officer form)
    (description form) = [].

(** The total of a table of counts. *)
Definition sum_counts (m : gmap string nat) : nat :=
  map_fold (fun _ n acc => (n + acc)%nat) 0%nat m.

(** The number of occurrences of a value in a column. *)
Definition occurrences (v : string) (l : list string) : nat :=
  length (filter (fun x => x = v) l).

(** A valid submission with two uploads, and the empty disk. *)
Definition evidence_form : crime_form :=
  {| crime_type := "Burglary"; location := "12 Main St"; priority := "High";
     officer := "Officer Brown"; status := "Open";
     incident_date := mk_date 2024 3 5;
     description := "Window forced, jewellery missing";
     file_upload := [mk_upload "photo.jpg" [Byte.x01; Byte.x02];
                     mk_upload "report.txt" [Byte.x03]];
     notes := "two photos to follow"; submitted := true |}.

Definition empty_disk : filesystem := {| dirs := ∅; files := ∅ |}.

(** A run: the submission above, then a new officer. *)
Definition evidence_run : list action :=
  [SubmitCase evidence_form sample_now sample_uuid sample_now;
   AddOfficer true "Officer Lee"].


(** * Properties *)

(** ** Strings *)

Lemma truthy_eqb (s : string) : Py.truthy s = negb (String.eqb s "").
Proof. by destruct s. Qed.

Lemma truthy_nonempty (s : string) : Py.truthy s = true ↔ s ≠ "".
Proof. destruct s; simpl; split; congruence. Qed.

Lemma len_ltb (s : string) (k : nat) :
  (Py.len s <? N.of_nat k) = negb (k <=? String.length s)%nat.
Proof.
  unfold Py.len.
  destruct (N.ltb_spec (N.of_nat (String.length s)) (N.of_nat k));
    destruct (Nat.leb_spec k (String.length s)); simpl; try done; lia.
Qed.

Lemma rule_b_spec (f : field) (ct loc off desc : string) :
  rule_b f ct loc off desc = true ↔ rule f ct loc off desc.
Proof.
  assert (He : ∀ s, negb (String.eqb s "") = true ↔ s ≠ "").
  { intros s. rewrite <- truthy_eqb. apply truthy_nonempty. }
  destruct f; unfold rule, rule_b;
    rewrite ?andb_true_iff, ?He, ?Nat.leb_le; tauto.
Qed.

Lemma append_cons (c : ascii) (a b : string) :
  String c a +:+ b = String c (a +:+ b).
Proof. reflexivity. Qed.

Lemma append_nil (b : string) : "" +:+ b = b.
Proof. reflexivity. Qed.

(** [lstrip] removes a run of white space at the start and no more. *)
Lemma lstrip_spec (s : string) :
  ∃ pre, s = pre +:+ Py.lstrip s
         ∧ all_chars Py.isspace pre = true
         ∧ match Py.lstrip s with
           | String c _ => Py.isspace c = false
           | EmptyString => True
           end.
Proof.
  induction s as [| c s (pre & Hs & Hpre & Hhd)]; simpl.
  - by exists "".
  - destruct (Py.isspace c) eqn:E.
    + exists (String c pre). rewrite append_cons, <- Hs. simpl.
      by rewrite E, Hpre.
    + exists "". by rewrite E.
Qed.

(** [rstrip] removes a run of white space at the end and keeps the start. *)
Lemma rstrip_spec (s : string) :
  ∃ post, s = Py.rstrip s +:+ post ∧ all_chars Py.isspace post = true.
Proof.
  induction s as [| c s (post & Hs & Hpost)]; simpl.
  - by exists "".
  - destruct (Py.rstrip s) as [| d t] eqn:E.
    + rewrite append_nil in Hs. subst post.
      destruct (Py.isspace c) eqn:Ec.
      * exists (String c s). rewrite append_nil. simpl. by rewrite Ec, Hpost.
      * exists s. by rewrite append_cons, append_nil.
    + exists post. by rewrite append_cons, <- Hs.
Qed.

Lemma rstrip_head (c : ascii) (s : string) :
  Py.isspace c = false → ∃ t, Py.rstrip (String c s) = String c t.
Proof.
  intros Hc. simpl. destruct (Py.rstrip s); rewrite ?Hc; eauto.
Qed.

Lemma rstrip_idem (s : string) : Py.rstrip (Py.rstrip s) = Py.rstrip s.
Proof.
  induction s as [| c s IH]; [done |]. simpl.
  destruct (Py.rstrip s) as [| d t] eqn:E.
  - destruct (Py.isspace c) eqn:Ec; [done |]. simpl. by rewrite Ec.
  - simpl in *. rewrite IH. reflexivity.
Qed.

(** [strip] cuts white space off both ends, and nothing is left to cut. *)
Lemma strip_spec (s : string) :
  (∃ pre post, s = pre +:+ Py.strip s +:+ post
               ∧ all_chars Py.isspace pre = true
               ∧ all_chars Py.isspace post = true)
  ∧ Py.lstrip (Py.strip s) = Py.strip s
  ∧ Py.rstrip (Py.strip s) = Py.strip s.
Proof.
  unfold Py.strip.
  destruct (lstrip_spec s) as (pre & Hs & Hpre & Hhd).
  destruct (rstrip_spec (Py.lstrip s)) as (post & Hl & Hpost).
  split; [| split].
  - exists pre, post. rewrite <- Hl. done.
  - destruct (Py.lstrip s) as [| c t]; [done |].
    destruct (rstrip_head c t Hhd) as [t' ->]. simpl. by rewrite Hhd.
  - apply rstrip_idem.
Qed.

(** ** Validation *)

(** The code appends one message per broken rule, rule by rule. *)
Lemma validate_form_data_unfold (ct loc off desc : string) :
  validate_form_data ct loc off desc =
  flat_map (fun f => if rule_b f ct loc off desc then [] else [message_of f])
    all_fields.
Proof.
  unfold validate_form_data, all_fields.
  rewrite !truthy_eqb.
  change 2 with (N.of_nat 2). change 10 with (N.of_nat 10).
  rewrite !len_ltb.
  cbn [flat_map rule_b message_of].
  destruct (String.eqb ct ""), (String.eqb loc ""), (String.eqb off ""),
    (String.eqb desc ""), (2 <=? String.length (Py.strip loc))%nat,
    (10 <=? String.length (Py.strip desc))%nat; reflexivity.
Qed.

(** C5: validation checks the four rules independently, one message per
    broken rule in the order of the rules; it returns the empty list exactly
    when crime type, location (trimmed length at least 2), officer and
    description (trimmed length at least 10) are all in order; and when
    exactly one rule is broken the result is the single message of that
    field, which names it. *)
Theorem validate_form_data_rules (ct loc off desc : string) :
  length (validate_form_data ct loc off desc)
    = length (filter (fun f => ¬ rule f ct loc off desc) all_fields)
  ∧ (∀ f, message_of f ∈ validate_form_data ct loc off desc
          ↔ ¬ rule f ct loc off desc)
  ∧ (validate_form_data ct loc off desc = []
     ↔ ct ≠ "" ∧ (loc ≠ "" ∧ (2 <= String.length (Py.strip loc))%nat)
       ∧ off ≠ "" ∧ (desc ≠ "" ∧ (10 <= String.length (Py.strip desc))%nat))
  ∧ (∀ f, ¬ rule f ct loc off desc
          → (∀ g, g ≠ f → rule g ct loc off desc)
          → validate_form_data ct loc off desc = [message_of f]
            ∧ names_field (message_of f) f = true).
Proof.
  rewrite validate_form_data_unfold. unfold all_fields.
  cbn [flat_map]. rewrite !filter_cons, filter_nil.
  change (ct ≠ "") with (rule F_crime_type ct loc off desc).
  change (off ≠ "") with (rule F_officer ct loc off desc).
  change (loc ≠ "" ∧ (2 <= String.length (Py.strip loc))%nat)
    with (rule F_location ct loc off desc).
  change (desc ≠ "" ∧ (10 <= String.length (Py.strip desc))%nat)
    with (rule F_description ct loc off desc).
  pose proof (rule_b_spec F_crime_type ct loc off desc) as H1.
  pose proof (rule_b_spec F_location ct loc off desc) as H2.
  pose proof (rule_b_spec F_officer ct loc off desc) as H3.
  pose proof (rule_b_spec F_description ct loc off desc) as H4.
  assert (Hall : ∀ P : field → Prop,
             P F_crime_type → P F_location → P F_officer → P F_description
             → ∀ f, P f) by (intros P ? ? ? ? []; assumption).
  destruct (rule_b F_crime_type ct loc off desc),
    (rule_b F_location ct loc off desc),
    (rule_b F_officer ct loc off desc),
    (rule_b F_description ct loc off desc).
  all: repeat case_decide; try (exfalso; intuition congruence).
  all: cbn [app length].
  all: split; [reflexivity |].
  all: split;
    [ apply Hall; cbn [message_of]; rewrite ?elem_of_cons, ?elem_of_nil;
      split; intros Hx; try (exfalso; intuition congruence);
      try (intuition congruence)
    |].
  all: split; [ split; [ try discriminate | ]; intuition congruence |].
  all: intros f Hf Hg.
  all: assert (Hg1 := Hg F_crime_type); assert (Hg2 := Hg F_location);
       assert (Hg3 := Hg F_officer); assert (Hg4 := Hg F_description).
  all: destruct f; try (exfalso; intuition congruence).
  all: split; reflexivity.
Qed.

(** ** Registration *)

(** C4: when validation of the submitted fields fails, registration changes
    nothing: the store, the attachment index and the upload directory are
    the ones before, and the run only reports the messages. *)
Theorem add_crime_invalid_no_mutation
    (form : crime_form) (now_id : datetime) (u : uuid) (now_reg : datetime)
    (w : world) :
  submitted form = true →
  validate_form_data (crime_type form) (location form) (officer form)
    (description form) ≠ [] →
  add_crime form now_id u now_reg w
  = (w, map st_error
          (validate_form_data (crime_type form) (location form)
             (officer form) (description form))).
Proof.
  intros Hs Hv. unfold add_crime. rewrite Hs.
  destruct (validate_form_data _ _ _ _) as [| e errors]; [done | reflexivity].
Qed.

(** A run that does not submit the form changes nothing either. *)
Lemma add_crime_not_submitted form now_id u now_reg w :
  submitted form = false → add_crime form now_id u now_reg w = (w, []).
Proof. intros Hs. unfold add_crime. by rewrite Hs. Qed.

(** A valid submission appends exactly one record and keeps the officers. *)
Lemma add_crime_valid form now_id u now_reg w :
  submitted form = true →
  validate_form_data (crime_type form) (location form) (officer form)
    (description form) = [] →
  ∃ r, crimes (session (add_crime form now_id u now_reg w).1)
       = crimes (session w) ++ [r]
       ∧ ID r = generate_crime_id now_id u
       ∧ officers (session (add_crime form now_id u now_reg w).1)
         = officers (session w).
Proof.
  intros Hs Hv. unfold add_crime. rewrite Hs, Hv.
  destruct (file_upload form) as [| up ups].
  - eexists. simpl. split; [reflexivity | split; reflexivity].
  - destruct (store_uploads _ _ _ _) as [fs uploaded].
    eexists. simpl. split; [reflexivity | split; reflexivity].
Qed.

(** ** Clearing the store *)

Lemma add_officer_keeps_prefix button new_officer st :
  officers st `prefix_of` officers (add_officer button new_officer st).1.
Proof.
  unfold add_officer.
  destruct (button && Py.truthy new_officer); [| done].
  case_bool_decide; simpl; [done |]. by apply prefix_app_r.
Qed.

(** C10: clearing empties the record store and the attachment index and
    leaves the officer registry as it was, whatever the state: the officers
    after the clear are the officers before it, in the same order. *)
Theorem clear_all_data_keeps_officers (st : session_state) :
  crimes (clear_all_data true true st) = []
  ∧ uploaded_files (clear_all_data true true st) = ∅
  ∧ (∀ button checkbox,
       officers (clear_all_data button checkbox st) = officers st).
Proof.
  split; [reflexivity | split; [reflexivity |]].
  intros [] []; reflexivity.
Qed.

(** The seeded officers are those of a new session, and adding officers
    and clearing never removes one of them. *)
Lemma seeded_officers_survive (added : list string) :
  let st := foldl (fun s o => (add_officer true o s).1) new_session added in
  default_officers `prefix_of` officers (clear_all_data true true st).
Proof.
  simpl. change default_officers with (officers new_session) at 1.
  generalize new_session. induction added as [| o added IH]; intros s; simpl.
  - done.
  - etrans; [apply (add_officer_keeps_prefix true o) | apply IH].
Qed.

(** ** The query engine *)

(** C8: with an empty search text, empty selections and no date range the
    query engine returns the records unchanged and in the same order. *)
Theorem apply_filters_empty_identity (df : list crime_record) :
  apply_filters "" [] [] [] [] [] df = Ok df.
Proof. reflexivity. Qed.

Lemma isin_singleton (x y : string) : isin x [y] = true ↔ x = y.
Proof.
  unfold isin. simpl. rewrite orb_false_r. apply String.eqb_eq.
Qed.

(** C7: with the status selection [Open] and every other filter empty, the
    query engine returns exactly the records whose status is Open, in
    their original order; no record of another status is returned. *)
Theorem apply_filters_status_open (df : list crime_record) :
  apply_filters "" [] ["Open"] [] [] [] df
  = Ok (filter (fun r => Status r = "Open") df)
  ∧ sublist (filter (fun r => Status r = "Open") df) df
  ∧ (∀ r, r ∈ filter (fun r => Status r = "Open") df
          ↔ r ∈ df ∧ Status r = "Open").
Proof.
  split; [| split].
  - unfold apply_filters. simpl. f_equal.
    apply list_filter_iff. intros r. apply isin_singleton.
  - apply sublist_filter.
  - intros r. rewrite list_elem_of_filter. tauto.
Qed.

(** ** Identifiers *)

(** A property of all numbers below a bound, checked one by one. *)
Lemma N_below_forall (P : N → bool) (k : nat) :
  forallb P (map N.of_nat (seq 0 k)) = true →
  ∀ d, d < N.of_nat k → P d = true.
Proof.
  intros Hall d Hd. rewrite forallb_forall in Hall. apply Hall.
  apply in_map_iff. exists (N.to_nat d). split; [lia |].
  apply in_seq. lia.
Qed.

Lemma digit_is_digit (n : N) : is_digit (Py.digit n) = true.
Proof.
  unfold Py.digit.
  assert (Hd : n mod 10 < N.of_nat 10) by (apply N.mod_lt; lia).
  revert Hd. generalize (n mod 10). intros d Hd.
  by apply (N_below_forall (fun d => is_digit (ascii_of_N (48 + d))) 10).
Qed.

Lemma hexdigit_upper_alnum (n : N) :
  is_upper_alnum (Py.upper_char (Py.hexdigit n)) = true.
Proof.
  unfold Py.hexdigit.
  assert (Hd : n mod 16 < N.of_nat 16) by (apply N.mod_lt; lia).
  revert Hd. generalize (n mod 16). intros d Hd.
  by apply (N_below_forall
              (fun d => is_upper_alnum
                          (Py.upper_char
                             (if d <? 10 then ascii_of_N (48 + d)
                              else ascii_of_N (87 + d)))) 16).
Qed.

(** A year of four digits is printed as those four digits. *)
Lemma str_N_four_digits (y : N) :
  1000 <= y → y <= 9999 → Py.str_N y = Py.pad4 y.
Proof.
  intros Hlo Hhi. unfold Py.str_N.
  assert (Hlog : 9 <= N.log2 y).
  { change 9 with (N.log2 1000). by apply N.log2_le_mono. }
  destruct (N.to_nat (N.log2 y)) as [| [| [| f]]] eqn:Hf; try lia.
  cbn [Py.str_N_aux].
  assert (H1 : (y <? 10) = false) by (apply N.ltb_ge; lia).
  assert (H2 : (y / 10 <? 10) = false).
  { apply N.ltb_ge. apply N.div_le_lower_bound; lia. }
  assert (H3 : (y / 10 / 10 <? 10) = false).
  { apply N.ltb_ge. rewrite N.Div0.div_div.
    apply N.div_le_lower_bound; lia. }
  assert (H4 : (y / 10 / 10 / 10 <? 10) = true).
  { apply N.ltb_lt. rewrite !N.Div0.div_div.
    apply N.Div0.div_lt_upper_bound; lia. }
  rewrite H1, H2, H3, H4. unfold Py.pad4, Py.pad2.
  by rewrite !N.Div0.div_div.
Qed.

Lemma generate_crime_id_format (now : datetime) (u : uuid) :
  1000 <= year now → year now <= 9999 →
  matches_id_format (generate_crime_id now u) = true.
Proof.
  intros Hlo Hhi. unfold generate_crime_id.
  change (strftime "%Y%m%d" now)
    with (Py.str_N (year now) +:+ Py.pad2 (month now) +:+ Py.pad2 (day now)
          +:+ "").
  rewrite (str_N_four_digits _ Hlo Hhi).
  cbv - [Py.digit Py.hexdigit Py.upper_char is_digit is_upper_alnum N.div].
  rewrite !digit_is_digit, !hexdigit_upper_alnum. reflexivity.
Qed.

(** C6: a successful registration appends a record whose identifier has the
    form CASE-, eight decimal digits, a hyphen, six upper-case letters or
    digits, for every clock reading with a four-digit year. *)
Theorem registration_id_format
    (form : crime_form) (now_id : datetime) (u : uuid) (now_reg : datetime)
    (w : world) :
  submitted form = true →
  validate_form_data (crime_type form) (location form) (officer form)
    (description form) = [] →
  datetime_ok now_id = true →
  1000 <= year now_id →
  ∃ r, crimes (session (add_crime form now_id u now_reg w).1)
       = crimes (session w) ++ [r]
       ∧ ID r = generate_crime_id now_id u
       ∧ matches_id_format (ID r) = true.
Proof.
  intros Hs Hv Hok Hlo.
  destruct (add_crime_valid form now_id u now_reg w Hs Hv)
    as (r & Hr & Hid & _).
  exists r. split; [done | split; [done |]].
  rewrite Hid. apply generate_crime_id_format; [done |].
  unfold datetime_ok in Hok. rewrite !andb_true_iff in Hok.
  apply N.leb_le. tauto.
Qed.

(** ** Free-text search *)

Lemma prefix_ci_spec (s t : string) :
  prefix_ci s t = true ↔ ∃ post, Py.lower t = Py.lower s +:+ post.
Proof.
  unfold Py.lower.
  revert t. induction s as [| a s IH]; intros t; simpl.
  - split; [eauto | done].
  - destruct t as [| c t]; simpl.
    + split; [done | intros [post H]; discriminate].
    + rewrite andb_true_iff, Ascii.eqb_eq, IH. split.
      * intros [Hc [post Hp]]. exists post. by rewrite Hc, Hp.
      * intros [post H]. injection H as Hc Hp. eauto.
Qed.

Lemma contains_cib_spec (s t : string) :
  contains_cib s t = true ↔ contains_ci t s.
Proof.
  unfold contains_ci. induction t as [| c t IH]; cbn [contains_cib].
  - rewrite orb_false_r, prefix_ci_spec. split.
    + intros [post H]. by exists "", post.
    + intros ([| x pre] & post & H); [eauto | discriminate].
  - rewrite orb_true_iff, prefix_ci_spec, IH. unfold Py.lower. split.
    + intros [[post H] | (pre & post & H)].
      * by exists "", post.
      * exists (String (Py.lower_char c) pre), post. simpl. by rewrite H.
    + intros ([| x pre] & post & H).
      * left. eauto.
      * right. simpl in H. injection H as _ H. eauto.
Qed.

Lemma literal_hitb_spec (s : string) (r : crime_record) :
  literal_hitb s r = true ↔ literal_hit s r.
Proof.
  unfold literal_hitb, literal_hit.
  rewrite existsb_exists, Exists_exists. split.
  - intros (kv & Hin & H). exists kv.
    split; [by apply list_elem_of_In | by apply contains_cib_spec].
  - intros (kv & Hin & H). exists kv.
    split; [by apply list_elem_of_In | by apply contains_cib_spec].
Qed.

Lemma compile_aux_literal (s : string) (fuel : nat) :
  plain_text s = true → (String.length s <= fuel)%nat →
  Re.compile_aux fuel s = Some (literal_pattern s).
Proof.
  revert fuel. induction s as [| c s IH]; intros fuel Hp Hf.
  - by destruct fuel.
  - destruct fuel as [| fuel]; [simpl in Hf; lia |].
    simpl in Hp. apply andb_true_iff in Hp as [Hc Hp].
    apply negb_true_iff in Hc.
    assert (Hr : Re.read_atom (String c s) = Some (Re.Lit c, s)).
    { unfold Re.read_atom.
      destruct (Ascii.eqb c "\") eqn:E1.
      { apply Ascii.eqb_eq in E1. subst c. discriminate Hc. }
      destruct (Ascii.eqb c ".") eqn:E2.
      { apply Ascii.eqb_eq in E2. subst c. discriminate Hc. }
      by rewrite Hc. }
    cbn [Re.compile_aux]. rewrite Hr.
    destruct s as [| q s']; [reflexivity |].
    assert (Hq : Re.quant_of q = None).
    { simpl in Hp. apply andb_true_iff in Hp as [Hq _].
      apply negb_true_iff in Hq. unfold Re.quant_of.
      destruct (Ascii.eqb q "*") eqn:E1.
      { apply Ascii.eqb_eq in E1. subst q. discriminate Hq. }
      destruct (Ascii.eqb q "+") eqn:E2.
      { apply Ascii.eqb_eq in E2. subst q. discriminate Hq. }
      destruct (Ascii.eqb q "?") eqn:E3.
      { apply Ascii.eqb_eq in E3. subst q. discriminate Hq. }
      reflexivity. }
    rewrite Hq. rewrite IH; [reflexivity | done | simpl in *; lia].
Qed.

(** A text without special characters compiles, to its own characters. *)
Lemma compile_literal (s : string) :
  plain_text s = true → Re.compile s = Some (literal_pattern s).
Proof. intros Hp. by apply compile_aux_literal. Qed.

Lemma match_here_literal (s t : string) :
  Re.match_here (literal_pattern s) t = prefix_ci s t.
Proof.
  revert t. induction s as [| a s IH]; intros t; [done |].
  destruct t as [| c t]; [done |].
  unfold literal_pattern in *. simpl. by rewrite IH.
Qed.

Lemma search_literal (s t : string) :
  Re.search (literal_pattern s) t = contains_cib s t.
Proof.
  induction t as [| c t IH]; simpl.
  - by rewrite match_here_literal.
  - by rewrite match_here_literal, IH.
Qed.

Lemma row_mask_literal (s : string) (r : crime_record) :
  row_mask (literal_pattern s) r = literal_hitb s r.
Proof.
  unfold row_mask, literal_hitb.
  induction (items r) as [| kv l IH]; simpl; [done |].
  by rewrite search_literal, IH.
Qed.

(** C3, as the code has it: for a non-empty search text without the
    special characters of regular expressions, the free-text filter keeps
    exactly the records one of whose fields, as a string, contains the text,
    letter case apart, and keeps them in order. *)
Theorem search_filter_plain_text (s : string) (df : list crime_record) :
  s ≠ "" →
  plain_text s = true →
  apply_filters s [] [] [] [] [] df
  = Ok (filter (fun r => literal_hitb s r = true) df)
  ∧ (∀ r, literal_hitb s r = true
          ↔ ∃ k v, (k, v) ∈ items r ∧ contains_ci (str_value v) s).
Proof.
  intros Hne Hp. split.
  - unfold apply_filters.
    apply truthy_nonempty in Hne. rewrite Hne.
    rewrite (compile_literal s Hp). simpl. f_equal.
    apply list_filter_iff. intros r. by rewrite row_mask_literal.
  - intros r. rewrite literal_hitb_spec. unfold literal_hit.
    rewrite Exists_exists. split.
    + intros ([k v] & Hin & H). eauto.
    + intros (k & v & Hin & H). exists (k, v). eauto.
Qed.

(** The sample registration produces the sample record. *)
Example add_crime_sample :
  crimes (session (add_crime sample_form sample_now sample_uuid sample_now
                     sample_world).1)
  = [sample_record].
Proof. reflexivity. Qed.

(** C3, refuted as stated: the search text [.] keeps a record none of whose
    fields contains a dot, because the text is compiled as a pattern. *)
Lemma search_dot_is_a_pattern :
  apply_filters "." [] [] [] [] [] [sample_record] = Ok [sample_record]
  ∧ ¬ (∃ k v, (k, v) ∈ items sample_record
              ∧ contains_ci (str_value v) ".").
Proof.
  split; [reflexivity |].
  intros (k & v & Hin & H).
  assert (Hb : literal_hitb "." sample_record = true).
  { apply literal_hitb_spec. apply Exists_exists. by exists (k, v). }
  discriminate Hb.
Qed.

(** A search text outside the modelled fragment is marked as such. *)
Example search_open_paren_outside :
  apply_filters "(" [] [] [] [] [] [sample_record]
  = Raise (outside_fragment "(").
Proof. reflexivity. Qed.

(** ** CSV export *)

Lemma count_lf_app (a b : string) :
  count_lf (a +:+ b) = (count_lf a + count_lf b)%nat.
Proof. induction a as [| c a IH]; simpl; [done | rewrite IH; lia]. Qed.

Lemma count_lines_app (a b : list N) :
  count_lines (a ++ b) = (count_lines a + count_lines b)%nat.
Proof. unfold count_lines. by rewrite filter_app, length_app. Qed.

Lemma count_lines_utf8_char (c : ascii) :
  count_lines (utf8_char c) = if Ascii.eqb c Py.LF then 1%nat else 0%nat.
Proof. destruct c as [[] [] [] [] [] [] [] []]; reflexivity. Qed.

(** Encoding neither adds nor removes a line feed. *)
Lemma count_lines_encode (s : string) :
  count_lines (encode_utf8 s) = count_lf s.
Proof.
  unfold encode_utf8. induction s as [| c s IH]; [done |].
  cbn [list_ascii_of_string flat_map count_lf].
  by rewrite count_lines_app, count_lines_utf8_char, IH.
Qed.

Lemma count_lf_double_quotes (s : string) :
  count_lf (double_quotes s) = count_lf s.
Proof.
  induction s as [| c s IH]; [done |]. simpl.
  destruct (Ascii.eqb c Py.DQUOTE) eqn:E; simpl; rewrite IH; [| done].
  apply Ascii.eqb_eq in E. by subst c.
Qed.

Lemma count_lf_quote_field (s : string) :
  count_lf (quote_field s) = count_lf s.
Proof.
  unfold quote_field. destruct (needs_quote s); [| done].
  simpl. rewrite count_lf_app, count_lf_double_quotes. simpl. lia.
Qed.

Lemma count_lf_join (sep : string) (l : list string) :
  count_lf sep = 0%nat →
  count_lf (Py.join sep l) = sum_list (map count_lf l).
Proof.
  intros Hsep. unfold Py.join.
  induction l as [| x [| y l] IH]; simpl in *; [done | lia |].
  rewrite !count_lf_app, Hsep, IH. lia.
Qed.

Lemma count_lf_csv_line (fields : list string) :
  count_lf (csv_line fields) = S (sum_list (map count_lf fields)).
Proof.
  unfold csv_line. rewrite count_lf_app, count_lf_join by done.
  rewrite map_map. rewrite (map_ext _ count_lf) by apply count_lf_quote_field.
  simpl. lia.
Qed.

Lemma count_lf_concat (l : list string) :
  count_lf (Py.join "" l) = sum_list (map count_lf l).
Proof. by apply count_lf_join. Qed.

(** No column is named [File], so the drop of line 54 keeps every column
    of a non-empty export. *)
Lemma export_frame_cons (r : crime_record) (rs : list crime_record) :
  export_frame (r :: rs) = DataFrame_of (r :: rs).
Proof.
  unfold export_frame, DataFrame_of, drop.
  cbn [columns cells map].
  change (negb (empty _)) with true. cbv iota.
  f_equal. f_equal. rewrite map_map. apply map_ext. intros r'. reflexivity.
Qed.

Lemma export_frame_nil : export_frame [] = mk_frame [] [].
Proof. reflexivity. Qed.

Lemma count_lf_rows (data : list crime_record) :
  sum_list
    (map count_lf
       (map (fun row => csv_line (map str_value row))
          (map (fun r => map snd (items r)) data)))
  = (length data + sum_list (map record_lfs data))%nat.
Proof.
  induction data as [| r data IH]; [done |].
  cbn [map sum_list length]. rewrite IH, count_lf_csv_line.
  unfold record_lfs at 2. rewrite !map_map. simpl. lia.
Qed.

(** The exported text has one line for the header and one per record, plus
    one for every line feed inside a field value. *)
Lemma export_to_csv_lines (data : list crime_record) :
  count_lines (export_to_csv data)
  = (length data + 1 + sum_list (map record_lfs data))%nat.
Proof.
  unfold export_to_csv. rewrite count_lines_encode.
  destruct data as [| r rs].
  - reflexivity.
  - rewrite export_frame_cons. unfold to_csv, DataFrame_of.
    cbn [columns cells]. rewrite count_lf_app, count_lf_concat.
    rewrite count_lf_rows. rewrite count_lf_csv_line. simpl. lia.
Qed.

(** C1, where the code departs from the claim: for every non-empty record
    sequence the export still has the column [Files]; it is the last of the
    header's eleven fields. *)
Theorem export_to_csv_keeps_files_column
    (r : crime_record) (rs : list crime_record) :
  columns (export_frame (r :: rs))
  = ["ID"; "Type"; "Location"; "Officer"; "Status"; "Priority";
     "Description"; "Notes"; "Date_Registered"; "Incident_Date"; "Files"]
  ∧ "Files" ∈ columns (export_frame (r :: rs))
  ∧ to_csv (export_frame (r :: rs))
    = "ID,Type,Location,Officer,Status,Priority,Description,Notes,Date_Registered,Incident_Date,Files"
      +:+ String Py.LF
            (Py.join ""
               (map (fun r => csv_line (map (fun kv => str_value kv.2)
                                          (items r)))
                  (r :: rs))).
Proof.
  rewrite export_frame_cons. split; [reflexivity | split].
  - simpl. set_solver.
  - unfold to_csv, DataFrame_of. cbn [columns cells].
    rewrite !map_map. reflexivity.
Qed.

(** The export of the sample record, as text. *)
Example export_sample :
  to_csv (export_frame [sample_record])
  = "ID,Type,Location,Officer,Status,Priority,Description,Notes,Date_Registered,Incident_Date,Files"
    +:+ String Py.LF
          ("CASE-20240307-ABCDEF,Theft,5th Ave,Officer Smith,Open,Medium,Stolen bicycle from porch,,2024-03-07 10:11:12,2024-03-06,0"
           +:+ String Py.LF "").
Proof. reflexivity. Qed.

(** ** JSON backup *)

Lemma isoformat_is_iso8601 (now : datetime) :
  is_iso8601 (isoformat now) = true.
Proof.
  unfold isoformat.
  destruct (microsecond now =? 0);
    cbv - [Py.digit is_digit N.div];
    rewrite !digit_is_digit; reflexivity.
Qed.

(** C2, as the code has it: while the store holds a record, the backup is
    an object with exactly the keys [crimes] (the records, as objects),
    [officers] (the names, as strings) and [export_date] (the ISO-8601
    timestamp of the clock), in this order. *)
Theorem backup_data_document (now : datetime) (st : session_state) :
  crimes st ≠ [] →
  datetime_ok now = true →
  backup_data now st
  = Some (JObject
            [("crimes", JArray (map json_of_record (crimes st)));
             ("officers", JArray (map JString (officers st)));
             ("export_date", JString (isoformat now))])
  ∧ (keys <$> backup_data now st)
    = Some ["crimes"; "officers"; "export_date"]
  ∧ is_iso8601 (isoformat now) = true.
Proof.
  intros Hne _. unfold backup_data.
  destruct (crimes st) as [| r rs] eqn:E; [done |].
  split; [reflexivity | split; [reflexivity |]].
  apply isoformat_is_iso8601.
Qed.

(** With an empty store no backup is offered. *)
Lemma backup_data_empty (now : datetime) (st : session_state) :
  crimes st = [] → backup_data now st = None.
Proof. intros E. unfold backup_data. by rewrite E. Qed.

(** C2, refuted as stated: the document of the sample state has no key
    [records] and no key [exportDate]. *)
Lemma backup_keys_are_not_records :
  ¬ (∃ doc, backup_data sample_now sample_state = Some doc
            ∧ ∀ k, k ∈ keys doc ↔ k ∈ ["records"; "officers"; "exportDate"]).
Proof.
  intros (doc & Hdoc & Hkeys). injection Hdoc as <-.
  assert (H : "records" ∈ ["crimes"; "officers"; "export_date"]).
  { apply (Hkeys "records"). set_solver. }
  set_solver.
Qed.

(** ** Statistics *)

Lemma isin_elem_of (x : string) (l : list string) :
  isin x l = true ↔ x ∈ l.
Proof.
  unfold isin. rewrite existsb_exists. split.
  - intros (y & Hin & Heq). apply String.eqb_eq in Heq. subst y.
    by apply list_elem_of_In.
  - intros Hin. exists x. split; [by apply list_elem_of_In |].
    apply String.eqb_refl.
Qed.

Lemma unique_from_elem_of (seen l : list string) (x : string) :
  x ∈ unique_from seen l ↔ x ∈ l ∧ x ∉ seen.
Proof.
  revert seen. induction l as [| y l IH]; intros seen; simpl.
  - set_solver.
  - destruct (isin y seen) eqn:E.
    + apply isin_elem_of in E. rewrite IH. set_solver.
    + assert (y ∉ seen) by (rewrite <- isin_elem_of; congruence).
      rewrite elem_of_cons, IH. destruct (decide (x = y)); set_solver.
Qed.

Lemma unique_from_NoDup (seen l : list string) : NoDup (unique_from seen l).
Proof.
  revert seen. induction l as [| y l IH]; intros seen; simpl.
  - constructor.
  - destruct (isin y seen); [apply IH |].
    constructor; [| apply IH].
    rewrite unique_from_elem_of. set_solver.
Qed.

(** [unique] lists every distinct value exactly once. *)
Lemma length_unique (l : list string) :
  length (unique l) = size (list_to_set l : gset string).
Proof.
  unfold unique.
  rewrite <- (size_list_to_set (C := gset string) (unique_from [] l))
    by apply unique_from_NoDup.
  f_equal. apply set_eq. intros x.
  rewrite !elem_of_list_to_set, unique_from_elem_of. set_solver.
Qed.

Lemma officer_set_nonempty (r : crime_record) (rs : list crime_record) :
  (0 < size (officer_set (r :: rs)))%nat.
Proof.
  unfold officer_set. simpl. rewrite size_union_alt, size_singleton. lia.
Qed.

Lemma avg_cases_per_officer_quotient (r : crime_record)
    (rs : list crime_record) :
  avg_cases_per_officer r rs
  = (inject_Z (Z.of_nat (length (r :: rs)))
     / inject_Z (Z.of_nat (size (officer_set (r :: rs)))))%Q.
Proof.
  unfold avg_cases_per_officer. cbv zeta. rewrite length_unique.
  fold (officer_set (r :: rs)).
  pose proof (officer_set_nonempty r rs) as Hpos.
  by destruct (Nat.ltb_spec 0 (size (officer_set (r :: rs)))); [| lia].
Qed.

(** C9, as the code has it: for a non-empty store the statistic is the
    number of records divided by the number of distinct officers in them,
    so four records over two distinct officers give exactly 2; for an empty
    store the dashboard returns at its guard and computes no statistic. *)
Theorem crime_statistics_average (st : session_state) :
  crime_statistics st
  = match crimes st with
    | [] => None
    | _ :: _ =>
        Some (inject_Z (Z.of_nat (length (crimes st)))
              / inject_Z (Z.of_nat (size (officer_set (crimes st)))))%Q
    end
  ∧ (length (crimes st) = 4%nat → size (officer_set (crimes st)) = 2%nat
     → ∃ q, crime_statistics st = Some q ∧ (q == 2)%Q).
Proof.
  unfold crime_statistics. destruct (crimes st) as [| r rs].
  - split; [reflexivity | discriminate].
  - rewrite avg_cases_per_officer_quotient. split; [reflexivity |].
    intros H4 H2. eexists. split; [reflexivity |]. rewrite H4, H2.
    reflexivity.
Qed.

(** C9, refuted as stated: with no records there is no statistic, so none
    that is 0. *)
Lemma no_records_no_average :
  crime_statistics new_session = None
  ∧ ¬ (∃ q, crime_statistics new_session = Some q ∧ (q == 0)%Q).
Proof. split; [reflexivity |]. intros (q & Hq & _). discriminate Hq. Qed.

(** ** The theorems at the scenario of section 8 *)

Lemma add_crime_invalid_no_mutation_witness :
  submitted short_form = true
  ∧ validate_form_data (crime_type short_form) (location short_form)
      (officer short_form) (description short_form) ≠ []
  ∧ add_crime short_form sample_now sample_uuid sample_now sample_world
    = (sample_world,
       [st_error "Description must be at least 10 characters long"]).
Proof.
  split; [reflexivity | split; [discriminate |]].
  apply (add_crime_invalid_no_mutation short_form sample_now sample_uuid
           sample_now sample_world); [reflexivity | discriminate].
Defined.

Lemma registration_id_format_witness :
  submitted sample_form = true
  ∧ validate_form_data (crime_type sample_form) (location sample_form)
      (officer sample_form) (description sample_form) = []
  ∧ datetime_ok sample_now = true
  ∧ 1000 <= year sample_now
  ∧ ∃ r, crimes (session (add_crime sample_form sample_now sample_uuid
                            sample_now sample_world).1)
         = crimes (session sample_world) ++ [r]
         ∧ ID r = generate_crime_id sample_now sample_uuid
         ∧ matches_id_format (ID r) = true.
Proof.
  split; [reflexivity | split; [reflexivity | split; [reflexivity |]]].
  split; [vm_compute; discriminate |].
  apply (registration_id_format sample_form sample_now sample_uuid
           sample_now sample_world);
    [reflexivity | reflexivity | reflexivity | vm_compute; discriminate].
Defined.

Lemma search_filter_plain_text_witness :
  "BICYCLE" ≠ ""
  ∧ plain_text "BICYCLE" = true
  ∧ apply_filters "BICYCLE" [] [] [] [] [] [sample_record]
    = Ok (filter (fun r => literal_hitb "BICYCLE" r = true) [sample_record])
  ∧ (∀ r, literal_hitb "BICYCLE" r = true
          ↔ ∃ k v, (k, v) ∈ items r ∧ contains_ci (str_value v) "BICYCLE").
Proof.
  split; [discriminate | split; [reflexivity |]].
  apply (search_filter_plain_text "BICYCLE" [sample_record]);
    [discriminate | reflexivity].
Defined.

Lemma backup_data_document_witness :
  crimes sample_state ≠ []
  ∧ datetime_ok sample_now = true
  ∧ backup_data sample_now sample_state
    = Some (JObject
              [("crimes", JArray (map json_of_record (crimes sample_state)));
               ("officers", JArray (map JString (officers sample_state)));
               ("export_date", JString (isoformat sample_now))])
  ∧ (keys <$> backup_data sample_now sample_state)
    = Some ["crimes"; "officers"; "export_date"]
  ∧ is_iso8601 (isoformat sample_now) = true.
Proof.
  split; [discriminate | split; [reflexivity |]].
  apply (backup_data_document sample_now sample_state);
    [discriminate | reflexivity].
Defined.

Lemma crime_statistics_average_witness :
  length (crimes
            {| crimes := four_records; uploaded_files := ∅;
               officers := default_officers |}) = 4%nat
  ∧ size (officer_set four_records) = 2%nat
  ∧ ∃ q, crime_statistics
           {| crimes := four_records; uploaded_files := ∅;
              officers := default_officers |} = Some q
         ∧ (q == 2)%Q.
Proof.
  split; [reflexivity | split; [by vm_compute |]].
  apply (proj2 (crime_statistics_average
                  {| crimes := four_records; uploaded_files := ∅;
                     officers := default_officers |}));
    [reflexivity | by vm_compute].
Defined.

Lemma validate_form_data_rules_witness :
  ¬ rule F_description "Theft" "5th Ave" "Officer Smith" "short"
  ∧ (∀ g, g ≠ F_description
          → rule g "Theft" "5th Ave" "Officer Smith" "short")
  ∧ validate_form_data "Theft" "5th Ave" "Officer Smith" "short"
    = ["Description must be at least 10 characters long"]
  ∧ names_field "Description must be at least 10 characters long"
      F_description = true.
Proof.
  assert (H1 : ¬ rule F_description "Theft" "5th Ave" "Officer Smith" "short").
  { intros [_ H]. vm_compute in H. lia. }
  assert (H2 : ∀ g, g ≠ F_description
                    → rule g "Theft" "5th Ave" "Officer Smith" "short").
  { intros [] Hg; try done. split; [done | vm_compute; lia]. }
  split; [exact H1 | split; [exact H2 |]].
  apply (proj2 (proj2 (proj2 (validate_form_data_rules
                                "Theft" "5th Ave" "Officer Smith" "short")))
           F_description H1 H2).
Defined.

(** * Further properties of the code *)

(** ** Validation and white space *)

Lemma strip_idem (s : string) : Py.strip (Py.strip s) = Py.strip s.
Proof.
  destruct (strip_spec s) as (_ & Hl & Hr).
  unfold Py.strip at 1. by rewrite Hl, Hr.
Qed.

Lemma strip_nil : Py.strip "" = "".
Proof. reflexivity. Qed.

Lemma length_check_strip (s : string) (k : N) :
  0 < k →
  negb (Py.truthy s) || (Py.len (Py.strip s) <? k)
  = negb (Py.truthy (Py.strip s)) || (Py.len (Py.strip (Py.strip s)) <? k).
Proof.
  intros Hk. rewrite strip_idem. destruct s as [| c s]; [done |].
  cbn [Py.truthy negb orb].
  destruct (Py.strip (String c s)) as [| d t]; [| done].
  change (Py.len "") with 0. cbn [Py.truthy negb orb].
  apply N.ltb_lt. lia.
Qed.

(** X1: Validation looks at the location and the description only through
    their trimmed forms: trimming them beforehand changes no message. *)
Theorem validate_form_data_strip (ct loc off desc : string) :
  validate_form_data ct loc off desc
  = validate_form_data ct (Py.strip loc) off (Py.strip desc).
Proof.
  unfold validate_form_data.
  by rewrite <- (length_check_strip loc 2), <- (length_check_strip desc 10).
Qed.

(** ** Officer management *)

Lemma add_officer_frame button new_officer st :
  crimes (add_officer button new_officer st).1 = crimes st
  ∧ uploaded_files (add_officer button new_officer st).1 = uploaded_files st.
Proof.
  unfold add_officer. destruct (button && Py.truthy new_officer); [| done].
  by case_bool_decide.
Qed.

Lemma add_officer_officers button new_officer st :
  officers (add_officer button new_officer st).1
  = if button && Py.truthy new_officer
       && negb (bool_decide (new_officer ∈ officers st))
    then officers st ++ [new_officer] else officers st.
Proof.
  unfold add_officer. destruct (button && Py.truthy new_officer); [| done].
  by case_bool_decide.
Qed.

Lemma add_officer_NoDup button new_officer st :
  NoDup (officers st) → NoDup (officers (add_officer button new_officer st).1).
Proof.
  intros Hnd. rewrite add_officer_officers.
  destruct (button && Py.truthy new_officer); [| done].
  case_bool_decide; [done |]. simpl.
  apply NoDup_app. split; [done |]. split; [| apply NoDup_singleton].
  intros x Hx ->%list_elem_of_singleton. done.
Qed.

(** X2: Pressing the button with a non-empty name leaves the name registered
    exactly once, whether or not it was there before; the existing names
    keep their places, a registry without duplicates stays so, and pressing
    again with the same name changes nothing. *)
Theorem add_officer_registers (new_officer : string) (st : session_state) :
  new_officer ≠ "" →
  NoDup (officers st) →
  let st' := (add_officer true new_officer st).1 in
  new_officer ∈ officers st'
  ∧ NoDup (officers st')
  ∧ officers st `prefix_of` officers st'
  ∧ (new_officer ∈ officers st → st' = st)
  ∧ add_officer true new_officer st'
    = (st', [st_warning "Officer already exists!"]).
Proof.
  intros Hne Hnd st'.
  assert (Hin : new_officer ∈ officers st').
  { unfold st'. rewrite add_officer_officers.
    apply truthy_nonempty in Hne. rewrite Hne. simpl.
    case_bool_decide; simpl; [done |]. set_solver. }
  split; [done |]. split; [by apply add_officer_NoDup |].
  split; [apply add_officer_keeps_prefix |]. split.
  - intros Hold. unfold st', add_officer.
    apply truthy_nonempty in Hne. rewrite Hne. simpl.
    by rewrite bool_decide_eq_true_2.
  - unfold add_officer at 1.
    apply truthy_nonempty in Hne. rewrite Hne. simpl.
    by rewrite bool_decide_eq_true_2.
Qed.

(** Without a press, or with an empty name, nothing changes and nothing is
    shown. *)
Lemma add_officer_idle button new_officer st :
  add_officer false new_officer st = (st, [])
  ∧ add_officer button "" st = (st, []).
Proof. split; [done | by destruct button]. Qed.

(** ** Registration: what a valid submission writes *)

Lemma store_uploads_spec crime_id ups fs uploaded :
  store_uploads crime_id ups fs uploaded
  = ({| dirs := dirs fs;
        files := foldl (fun m up =>
                          <[upload_path crime_id (name up) := content up]> m)
                   (files fs) ups |},
     uploaded ++ map (fun up => upload_path crime_id (name up)) ups).
Proof.
  revert fs uploaded. induction ups as [| up ups IH]; intros fs uploaded.
  - simpl. rewrite app_nil_r. by destruct fs.
  - cbn [store_uploads]. rewrite IH. cbn [foldl map dirs files write_file].
    by rewrite <- app_assoc.
Qed.

Lemma lookup_written crime_id ups (m : gmap string (list Byte.byte)) path :
  foldl (fun m up => <[upload_path crime_id (name up) := content up]> m)
    m ups !! path
  = match last_written crime_id ups path with
    | Some c => Some c
    | None => m !! path
    end.
Proof.
  revert m. induction ups as [| up ups IH]; intros m; [done |].
  cbn [foldl last_written]. rewrite IH.
  destruct (last_written crime_id ups path); [done |].
  destruct (String.eqb_spec (upload_path crime_id (name up)) path) as [-> |].
  - by rewrite lookup_insert_eq.
  - by rewrite lookup_insert_ne.
Qed.

Lemma last_written_is_Some crime_id ups path :
  path ∈ map (fun up => upload_path crime_id (name up)) ups →
  is_Some (last_written crime_id ups path).
Proof.
  induction ups as [| up ups IH]; cbn [map last_written];
    [by intros ?%elem_of_nil |].
  intros [-> | Hin]%elem_of_cons.
  - destruct (last_written crime_id ups _); [done |].
    by rewrite String.eqb_refl.
  - destruct (IH Hin) as [c ->]. done.
Qed.

(** The state after a valid submission, in one equation. *)
Lemma add_crime_registered form now_id u now_reg w :
  submitted form = true →
  valid_form form →
  let crime_id := generate_crime_id now_id u in
  let uploaded :=
    map (fun up => upload_path crime_id (name up)) (file_upload form) in
  (add_crime form now_id u now_reg w).1
  = {| session :=
         {| crimes := crimes (session w)
                      ++ [registered_record form crime_id now_reg uploaded];
            uploaded_files :=
              match file_upload form with
              | [] => uploaded_files (session w)
              | _ :: _ => <[crime_id := uploaded]> (uploaded_files (session w))
              end;
            officers := officers (session w) |};
       disk :=
         match file_upload form with
         | [] => disk w
         | _ :: _ =>
             {| dirs := {["uploads"]} ∪ dirs (disk w);
                files :=
                  foldl (fun m up =>
                           <[upload_path crime_id (name up) := content up]> m)
                    (files (disk w)) (file_upload form) |}
         end |}.
Proof.
  intros Hs Hv crime_id uploaded. unfold add_crime. rewrite Hs, Hv.
  fold crime_id. destruct (file_upload form) as [| up ups] eqn:E.
  - reflexivity.
  - rewrite store_uploads_spec. cbn [fst app]. reflexivity.
Qed.

Lemma add_crime_unchanged form now_id u now_reg w :
  submitted form = false ∨ ¬ valid_form form →
  (add_crime form now_id u now_reg w).1 = w.
Proof.
  unfold add_crime, valid_form. intros [-> | Hv]; [done |].
  destruct (submitted form); [| done].
  by destruct (validate_form_data _ _ _ _).
Qed.

Lemma valid_form_dec (form : crime_form) :
  valid_form form ∨ ¬ valid_form form.
Proof.
  unfold valid_form. destruct (validate_form_data _ _ _ _); [by left |].
  by right.
Qed.

(** X6: A valid submission appends one record and touches nothing else in the
    store: the earlier records keep their positions, the officers are the
    same, the record carries the form's values as entered and counts the
    uploaded files. *)
Theorem add_crime_appends
    (form : crime_form) (now_id : datetime) (u : uuid) (now_reg : datetime)
    (w : world) :
  submitted form = true →
  valid_form form →
  let w' := (add_crime form now_id u now_reg w).1 in
  ∃ r, crimes (session w') = crimes (session w) ++ [r]
       ∧ officers (session w') = officers (session w)
       ∧ (Type_ r, Location r, Officer r, Status r, Priority r)
         = (crime_type form, location form, officer form, status form,
            priority form)
       ∧ (Description r, Notes r) = (description form, notes form)
       ∧ Files r = N.of_nat (length (file_upload form))
       ∧ (∀ i r', crimes (session w) !! i = Some r'
                  → crimes (session w') !! i = Some r').
Proof.
  intros Hs Hv w'. unfold w'. rewrite (add_crime_registered _ _ _ _ _ Hs Hv).
  eexists. cbn [session crimes officers].
  split; [reflexivity |]. split; [reflexivity |].
  split; [reflexivity |]. split; [reflexivity |]. split.
  - cbn [registered_record Files]. by rewrite length_map.
  - intros i r' Hi. by apply lookup_app_l_Some.
Qed.

(** X7: A valid submission with uploads creates the directory, writes every
    file under [uploads/<id>_<name>], the last one winning when two uploads
    share a name, leaves every other path of the disk alone, and indexes
    the paths under the new identifier in upload order. *)
Theorem add_crime_stores_uploads
    (form : crime_form) (now_id : datetime) (u : uuid) (now_reg : datetime)
    (w : world) :
  submitted form = true →
  valid_form form →
  file_upload form ≠ [] →
  let w' := (add_crime form now_id u now_reg w).1 in
  let crime_id := generate_crime_id now_id u in
  "uploads" ∈ dirs (disk w')
  ∧ uploaded_files (session w') !! crime_id
    = Some (map (fun up => upload_path crime_id (name up)) (file_upload form))
  ∧ (∀ other, other ≠ crime_id
              → uploaded_files (session w') !! other
                = uploaded_files (session w) !! other)
  ∧ (∀ path, files (disk w') !! path
             = match last_written crime_id (file_upload form) path with
               | Some c => Some c
               | None => files (disk w) !! path
               end).
Proof.
  intros Hs Hv Hup w' crime_id. unfold w'.
  rewrite (add_crime_registered _ _ _ _ _ Hs Hv). fold crime_id.
  destruct (file_upload form) as [| up ups]; [done |].
  cbn [session disk dirs files uploaded_files].
  split; [set_solver |]. split; [by rewrite lookup_insert_eq |].
  split; [intros other Hne; by rewrite lookup_insert_ne |].
  intros path. apply lookup_written.
Qed.

(** X8: A valid submission without uploads leaves the disk and the attachment
    index exactly as they were (the directory is not even created) and
    records zero files. *)
Theorem add_crime_without_uploads
    (form : crime_form) (now_id : datetime) (u : uuid) (now_reg : datetime)
    (w : world) :
  submitted form = true →
  valid_form form →
  file_upload form = [] →
  let w' := (add_crime form now_id u now_reg w).1 in
  disk w' = disk w
  ∧ uploaded_files (session w') = uploaded_files (session w)
  ∧ ∃ r, last (crimes (session w')) = Some r ∧ Files r = 0.
Proof.
  intros Hs Hv Hup w'. unfold w'.
  rewrite (add_crime_registered _ _ _ _ _ Hs Hv). rewrite Hup.
  cbn [session disk uploaded_files crimes].
  split; [done |]. split; [done |].
  eexists. rewrite last_snoc. split; reflexivity.
Qed.

(** ** Invariants of every run *)

Lemma run_invariant (P : world → Prop) :
  (∀ w a, P w → P (step w a)) → ∀ acts w, P w → P (run acts w).
Proof.
  intros Hstep acts. unfold run.
  induction acts as [| a acts IH]; intros w Hw; [done |].
  simpl. apply IH. by apply Hstep.
Qed.

Lemma add_crime_cases form now_id u now_reg w :
  (add_crime form now_id u now_reg w).1 = w
  ∨ (submitted form = true ∧ valid_form form).
Proof.
  destruct (submitted form) eqn:Hs.
  - destruct (valid_form_dec form) as [Hv | Hv]; [by right |].
    left. apply add_crime_unchanged. by right.
  - left. apply add_crime_unchanged. by left.
Qed.

Lemma add_crime_officers form now_id u now_reg w :
  officers (session (add_crime form now_id u now_reg w).1)
  = officers (session w).
Proof.
  destruct (add_crime_cases form now_id u now_reg w) as [-> | [Hs Hv]];
    [done |].
  by rewrite (add_crime_registered _ _ _ _ _ Hs Hv).
Qed.

Lemma clear_all_data_cases button checkbox st :
  clear_all_data button checkbox st = st
  ∨ clear_all_data button checkbox st
    = {| crimes := []; uploaded_files := ∅; officers := officers st |}.
Proof. destruct button, checkbox; auto. Qed.

Lemma step_officers w a :
  officers (session (step w a)) = officers (session w)
  ∨ ∃ button new_officer,
      a = AddOfficer button new_officer
      ∧ new_officer ≠ ""
      ∧ (new_officer ∉ officers (session w))
      ∧ officers (session (step w a)) = officers (session w) ++ [new_officer].
Proof.
  destruct a as [button new_officer | form now_id u now_reg | button checkbox].
  - cbn [step session]. rewrite add_officer_officers.
    destruct button; [| by left]. cbn [andb].
    destruct (Py.truthy new_officer) eqn:Ht; [| by left]. cbn [andb].
    case_bool_decide; [by left |]. right.
    exists true, new_officer. by rewrite <- truthy_nonempty.
  - left. apply add_crime_officers.
  - left. cbn [step session].
    by destruct (clear_all_data_cases button checkbox (session w)) as [-> | ->].
Qed.

(** X3: Whatever the user does, in any order and from any disk, the officer
    registry has no duplicate and no empty name, and it starts with the
    five seeded officers in their order. *)
Theorem run_officers_wellformed (acts : list action) (fs : filesystem) :
  let registry := officers (session (run acts (start fs))) in
  NoDup registry ∧ ("" ∉ registry) ∧ default_officers `prefix_of` registry.
Proof.
  apply (run_invariant
           (fun w => NoDup (officers (session w))
                     ∧ ("" ∉ officers (session w))
                     ∧ default_officers `prefix_of` officers (session w))).
  - intros w a (Hnd & Hne & Hpre).
    destruct (step_officers w a)
      as [-> | (button & new_officer & _ & Hnew & Hfresh & ->)]; [done |].
    split; [| split].
    + apply NoDup_app. split; [done |]. split; [| apply NoDup_singleton].
      intros x Hx ->%list_elem_of_singleton. done.
    + rewrite elem_of_app, list_elem_of_singleton. intros [? | ?]; done.
    + by apply prefix_app_r.
  - cbn. split; [| split; [| done]].
    + apply (bool_decide_unpack _). by vm_compute.
    + apply (bool_decide_unpack _). by vm_compute.
Qed.

Lemma valid_form_rules (form : crime_form) (f : field) :
  valid_form form →
  rule f (crime_type form) (location form) (officer form) (description form).
Proof.
  unfold valid_form. rewrite validate_form_data_unfold. intros Hv.
  apply rule_b_spec. unfold all_fields in Hv. cbn [flat_map] in Hv.
  destruct f;
    repeat match type of Hv with
           | context [if ?b then _ else _] => destruct b eqn:?
           end; try done; discriminate Hv.
Qed.

Lemma step_crimes w a r :
  r ∈ crimes (session (step w a)) →
  r ∈ crimes (session w)
  ∨ ∃ form now_id u now_reg,
      a = SubmitCase form now_id u now_reg
      ∧ submitted form = true ∧ valid_form form
      ∧ r = registered_record form (generate_crime_id now_id u) now_reg
              (map (fun up => upload_path (generate_crime_id now_id u)
                                (name up)) (file_upload form)).
Proof.
  destruct a as [button new_officer | form now_id u now_reg | button checkbox].
  - cbn [step session].
    destruct (add_officer_frame button new_officer (session w)) as [-> _].
    by left.
  - cbn [step].
    destruct (add_crime_cases form now_id u now_reg w) as [-> | [Hs Hv]];
      [by left |].
    rewrite (add_crime_registered _ _ _ _ _ Hs Hv). cbn [session crimes].
    intros [Hin | ->%list_elem_of_singleton]%elem_of_app; [by left |].
    right. by exists form, now_id, u, now_reg.
  - cbn [step session].
    destruct (clear_all_data_cases button checkbox (session w)) as [-> | ->];
      [by left |].
    cbn [crimes]. by intros ?%elem_of_nil.
Qed.

(** X4: Every record in the store, after any run, satisfies the four rules
    of validation: nothing enters the store unvalidated and nothing in it
    is changed afterwards. *)
Theorem run_records_validated
    (acts : list action) (fs : filesystem) (r : crime_record) (f : field) :
  r ∈ crimes (session (run acts (start fs))) →
  rule f (Type_ r) (Location r) (Officer r) (Description r).
Proof.
  revert r.
  apply (run_invariant
           (fun w => ∀ r, r ∈ crimes (session w)
                          → rule f (Type_ r) (Location r) (Officer r)
                              (Description r))).
  - intros w a IH r Hr.
    destruct (step_crimes w a r Hr)
      as [Hold | (form & now_id & u & now_reg & _ & _ & Hv & ->)];
      [by apply IH |].
    cbn [registered_record Type_ Location Officer Description].
    by apply valid_form_rules.
  - intros r Hr. cbn in Hr. by apply elem_of_nil in Hr.
Qed.

Lemma written_or_kept crime_id ups (m : gmap string (list Byte.byte)) path :
  is_Some (m !! path) →
  is_Some (foldl (fun m up =>
                    <[upload_path crime_id (name up) := content up]> m)
             m ups !! path).
Proof.
  intros Hm. rewrite lookup_written.
  by destruct (last_written crime_id ups path).
Qed.

(** X5: After any run, every entry of the attachment index belongs to a record
    of the store, the upload directory exists, and every path the entry
    lists is a file on the disk. *)
Theorem run_index_consistent
    (acts : list action) (fs : filesystem) (crime_id : string)
    (paths : list string) :
  let w := run acts (start fs) in
  uploaded_files (session w) !! crime_id = Some paths →
  (∃ r, r ∈ crimes (session w) ∧ ID r = crime_id)
  ∧ "uploads" ∈ dirs (disk w)
  ∧ (∀ path, path ∈ paths → is_Some (files (disk w) !! path)).
Proof.
  revert crime_id paths.
  apply (run_invariant
           (fun w => ∀ crime_id paths,
              uploaded_files (session w) !! crime_id = Some paths →
              (∃ r, r ∈ crimes (session w) ∧ ID r = crime_id)
              ∧ "uploads" ∈ dirs (disk w)
              ∧ (∀ path, path ∈ paths → is_Some (files (disk w) !! path)))).
  - intros w a IH crime_id paths.
    destruct a as [button new_officer | form now_id u now_reg
                  | button checkbox].
    + cbn [step session disk].
      destruct (add_officer_frame button new_officer (session w)) as [-> ->].
      apply IH.
    + cbn [step].
      destruct (add_crime_cases form now_id u now_reg w) as [-> | [Hs Hv]];
        [apply IH |].
      rewrite (add_crime_registered _ _ _ _ _ Hs Hv).
      cbn [session disk crimes uploaded_files].
      destruct (file_upload form) as [| up ups] eqn:Eup.
      * intros Hidx. destruct (IH _ _ Hidx) as ((r & Hr & Hid) & Hd & Hf).
        split; [| done]. exists r. split; [| done].
        apply elem_of_app. by left.
      * cbn [dirs files].
        destruct (decide (crime_id = generate_crime_id now_id u)) as [-> | Hne].
        -- rewrite lookup_insert_eq. intros [= <-].
           split; [| split; [set_solver |]].
           ++ eexists. split; [apply elem_of_app; right;
                               apply list_elem_of_singleton; reflexivity |].
              reflexivity.
           ++ intros path Hpath. rewrite lookup_written.
              by destruct (last_written_is_Some _ (up :: ups) _ Hpath)
                as [c ->].
        -- rewrite lookup_insert_ne by done. intros Hidx.
           destruct (IH _ _ Hidx) as ((r & Hr & Hid) & Hd & Hf).
           split; [| split; [set_solver |]].
           ++ exists r. split; [| done]. apply elem_of_app. by left.
           ++ intros path Hpath. apply written_or_kept. by apply Hf.
    + cbn [step session disk].
      destruct (clear_all_data_cases button checkbox (session w)) as [-> | ->];
        [apply IH |].
      cbn [uploaded_files]. by rewrite lookup_empty.
  - intros crime_id paths. cbn. by rewrite lookup_empty.
Qed.

(** ** Identifiers: when two of them coincide *)

(** The nibble [k] places from the right. *)
Lemma iter_div16 (k : nat) (u : N) :
  Nat.iter k (fun x => x / 16) u = u / 2 ^ (4 * N.of_nat k).
Proof.
  induction k as [| k IH].
  - simpl. by rewrite N.div_1_r.
  - rewrite Nat.iter_succ, IH, N.Div0.div_div. f_equal.
    replace (4 * N.of_nat (S k)) with (4 * N.of_nat k + 4) by lia.
    by rewrite N.pow_add_r.
Qed.

Lemma uuid_prefix (u : uuid) :
  Py.slice 0 6 (str_uuid u)
  = String (Py.hexdigit (Nat.iter 31 (fun x => x / 16) u))
      (String (Py.hexdigit (Nat.iter 30 (fun x => x / 16) u))
         (String (Py.hexdigit (Nat.iter 29 (fun x => x / 16) u))
            (String (Py.hexdigit (Nat.iter 28 (fun x => x / 16) u))
               (String (Py.hexdigit (Nat.iter 27 (fun x => x / 16) u))
                  (String (Py.hexdigit (Nat.iter 26 (fun x => x / 16) u))
                     ""))))).
Proof. reflexivity. Qed.

Lemma nibble_testbit (u : N) (k : nat) (i : N) :
  N.testbit ((u / 2 ^ (4 * N.of_nat k)) mod 16) i
  = (i <? 4) && N.testbit u (i + 4 * N.of_nat k).
Proof.
  change 16 with (2 ^ 4). destruct (N.ltb_spec i 4).
  - rewrite N.mod_pow2_bits_low by done. by rewrite N.div_pow2_bits.
  - by rewrite N.mod_pow2_bits_high.
Qed.

Lemma leading_bits_testbit (u : uuid) (j : N) :
  N.testbit (leading_bits u) j = (j <? 24) && N.testbit u (j + 104).
Proof.
  unfold leading_bits. destruct (N.ltb_spec j 24).
  - rewrite N.mod_pow2_bits_low by done. by rewrite N.div_pow2_bits.
  - by rewrite N.mod_pow2_bits_high.
Qed.

(** The six leading nibbles and the 24 leading bits say the same. *)
Lemma leading_bits_nibbles (u1 u2 : uuid) :
  leading_bits u1 = leading_bits u2
  ↔ ∀ k, (26 <= k <= 31)%nat →
         (u1 / 2 ^ (4 * N.of_nat k)) mod 16
         = (u2 / 2 ^ (4 * N.of_nat k)) mod 16.
Proof.
  split.
  - intros H k Hk. apply N.bits_inj. intros i.
    rewrite !nibble_testbit. destruct (N.ltb_spec i 4); [| done]. simpl.
    pose proof (leading_bits_testbit u1 (i + 4 * N.of_nat k - 104)) as H1.
    pose proof (leading_bits_testbit u2 (i + 4 * N.of_nat k - 104)) as H2.
    rewrite H in H1. rewrite H1 in H2.
    replace (i + 4 * N.of_nat k - 104 + 104) with (i + 4 * N.of_nat k)
      in H2 by lia.
    destruct (N.ltb_spec (i + 4 * N.of_nat k - 104) 24); [done | lia].
  - intros H. apply N.bits_inj. intros j.
    rewrite !leading_bits_testbit. destruct (N.ltb_spec j 24); [| done].
    cbn [andb].
    assert (Hex : ∃ k, (26 <= k <= 31)%nat
                       ∧ j + 104 = j mod 4 + 4 * N.of_nat k).
    { exists (26 + N.to_nat (j / 4))%nat.
      assert (Hq : j / 4 < 6) by (apply N.Div0.div_lt_upper_bound; lia).
      pose proof (N.div_mod j 4 ltac:(lia)) as Hdm.
      revert Hq Hdm. generalize (j / 4), (j mod 4). intros q m Hq Hdm. lia. }
    destruct Hex as (k & Hk & Hj).
    pose proof (f_equal (fun x => N.testbit x (j mod 4)) (H k Hk)) as Hb.
    cbv beta in Hb. rewrite !nibble_testbit in Hb.
    assert (Hm : j mod 4 < 4) by (apply N.mod_lt; lia).
    apply N.ltb_lt in Hm. rewrite Hm in Hb. cbn [andb] in Hb.
    by rewrite Hj.
Qed.

Lemma hexdigit_mod (a b : N) :
  a mod 16 = b mod 16 → Py.hexdigit a = Py.hexdigit b.
Proof. unfold Py.hexdigit. by intros ->. Qed.

(** On the same calendar day, UUIDs with the same leading bits give the
    same identifier. *)
Lemma generate_crime_id_agree (now1 now2 : datetime) (u1 u2 : uuid) :
  year now1 = year now2 → month now1 = month now2 → day now1 = day now2 →
  leading_bits u1 = leading_bits u2 →
  generate_crime_id now1 u1 = generate_crime_id now2 u2.
Proof.
  intros Hy Hm Hd Hb. unfold generate_crime_id.
  change (strftime "%Y%m%d" now1)
    with (Py.str_N (year now1) +:+ Py.pad2 (month now1)
          +:+ Py.pad2 (day now1) +:+ "").
  change (strftime "%Y%m%d" now2)
    with (Py.str_N (year now2) +:+ Py.pad2 (month now2)
          +:+ Py.pad2 (day now2) +:+ "").
  rewrite Hy, Hm, Hd, !uuid_prefix, !iter_div16.
  pose proof (proj1 (leading_bits_nibbles u1 u2) Hb) as Hn.
  rewrite (hexdigit_mod _ _ (Hn 31%nat ltac:(lia))).
  rewrite (hexdigit_mod _ _ (Hn 30%nat ltac:(lia))).
  rewrite (hexdigit_mod _ _ (Hn 29%nat ltac:(lia))).
  rewrite (hexdigit_mod _ _ (Hn 28%nat ltac:(lia))).
  rewrite (hexdigit_mod _ _ (Hn 27%nat ltac:(lia))).
  rewrite (hexdigit_mod _ _ (Hn 26%nat ltac:(lia))).
  reflexivity.
Qed.

Lemma digit_inj (a b : N) : Py.digit a = Py.digit b → a mod 10 = b mod 10.
Proof.
  unfold Py.digit. intros H. apply (f_equal N_of_ascii) in H.
  assert (Ha : a mod 10 < 10) by (apply N.mod_lt; lia).
  assert (Hb : b mod 10 < 10) by (apply N.mod_lt; lia).
  rewrite !N_ascii_embedding in H by lia. lia.
Qed.

Lemma upper_hexdigit_inj (a b : N) :
  Py.upper_char (Py.hexdigit a) = Py.upper_char (Py.hexdigit b) →
  a mod 16 = b mod 16.
Proof.
  set (decode := fun c : ascii =>
                   let n := N_of_ascii c in
                   if n <? 65 then n - 48 else n - 55).
  assert (Hdec : ∀ x, decode (Py.upper_char (Py.hexdigit x)) = x mod 16).
  { intros x. unfold Py.hexdigit.
    assert (Hd : x mod 16 < N.of_nat 16) by (apply N.mod_lt; lia).
    revert Hd. generalize (x mod 16). intros d Hd. apply N.eqb_eq.
    by apply (N_below_forall
                (fun d => decode
                            (Py.upper_char
                               (if d <? 10 then ascii_of_N (48 + d)
                                else ascii_of_N (87 + d))) =? d) 16). }
  intros H. by rewrite <- (Hdec a), <- (Hdec b), H.
Qed.

Lemma four_digits (y : N) :
  y <= 9999 →
  y = 1000 * ((y / 1000) mod 10) + 100 * ((y / 100) mod 10)
      + 10 * ((y / 10) mod 10) + y mod 10.
Proof.
  intros Hy.
  pose proof (N.div_mod y 10 ltac:(lia)) as H1.
  pose proof (N.div_mod (y / 10) 10 ltac:(lia)) as H2.
  pose proof (N.div_mod (y / 10 / 10) 10 ltac:(lia)) as H3.
  assert (H4 : y / 1000 < 10) by (apply N.Div0.div_lt_upper_bound; lia).
  rewrite (N.mod_small _ _ H4).
  rewrite !N.Div0.div_div in H2, H3.
  change (10 * 10) with 100 in *. rewrite ?N.Div0.div_div in H3.
  change (100 * 10) with 1000 in *.
  revert H1 H2 H3.
  generalize (y / 1000), (y / 100), (y / 10),
    (y mod 10), ((y / 10) mod 10), ((y / 100) mod 10).
  intros. lia.
Qed.

Lemma two_digits (m : N) :
  m <= 99 → m = 10 * ((m / 10) mod 10) + m mod 10.
Proof.
  intros Hm.
  pose proof (N.div_mod m 10 ltac:(lia)) as H1.
  assert (H2 : m / 10 < 10) by (apply N.Div0.div_lt_upper_bound; lia).
  rewrite (N.mod_small _ _ H2). exact H1.
Qed.

Lemma datetime_ok_bounds (d : datetime) :
  datetime_ok d = true →
  year d <= 9999 ∧ month d <= 12 ∧ day d <= 31
  ∧ hour d <= 23 ∧ minute d <= 59 ∧ second d <= 59.
Proof.
  unfold datetime_ok. rewrite !andb_true_iff, !N.leb_le. tauto.
Qed.

(** X9: Two identifiers coincide exactly when they are made on the same
    calendar day from UUIDs with the same 24 leading bits; the other 104
    bits of the UUID do not enter the identifier. *)
Theorem generate_crime_id_coincide (now1 now2 : datetime) (u1 u2 : uuid) :
  datetime_ok now1 = true → 1000 <= year now1 →
  datetime_ok now2 = true → 1000 <= year now2 →
  generate_crime_id now1 u1 = generate_crime_id now2 u2
  ↔ (year now1 = year now2 ∧ month now1 = month now2 ∧ day now1 = day now2)
    ∧ leading_bits u1 = leading_bits u2.
Proof.
  intros Hok1 Hlo1 Hok2 Hlo2.
  destruct (datetime_ok_bounds _ Hok1) as (Hy1 & Hm1 & Hd1 & _).
  destruct (datetime_ok_bounds _ Hok2) as (Hy2 & Hm2 & Hd2 & _).
  clear Hok1 Hok2.
  destruct now1 as [y1 m1 d1 ? ? ? ?], now2 as [y2 m2 d2 ? ? ? ?].
  cbn [year month day] in *.
  split.
  - unfold generate_crime_id.
    change (strftime "%Y%m%d" (mk_datetime y1 m1 d1 _ _ _ _))
      with (Py.str_N y1 +:+ Py.pad2 m1 +:+ Py.pad2 d1 +:+ "").
    change (strftime "%Y%m%d" (mk_datetime y2 m2 d2 _ _ _ _))
      with (Py.str_N y2 +:+ Py.pad2 m2 +:+ Py.pad2 d2 +:+ "").
    rewrite !str_N_four_digits, !uuid_prefix, !iter_div16 by done.
    intros H.
    cbv - [Py.digit Py.hexdigit Py.upper_char N.div N.pow N.mul N.of_nat] in H.
    injection H as Y1 Y2 Y3 Y4 M1 M2 D1 D2 X1 X2 X3 X4 X5 X6.
    apply digit_inj in Y1, Y2, Y3, Y4, M1, M2, D1, D2.
    apply upper_hexdigit_inj in X1, X2, X3, X4, X5, X6.
    split; [split; [| split] |].
    + rewrite (four_digits y1), (four_digits y2) by done.
      by rewrite Y1, Y2, Y3, Y4.
    + rewrite (two_digits m1), (two_digits m2) by lia.
      by rewrite M1, M2.
    + rewrite (two_digits d1), (two_digits d2) by lia.
      by rewrite D1, D2.
    + apply leading_bits_nibbles. intros k Hk.
      assert (Hcases : k = 26%nat ∨ k = 27%nat ∨ k = 28%nat ∨ k = 29%nat
                       ∨ k = 30%nat ∨ k = 31%nat) by lia.
      destruct Hcases as [-> | [-> | [-> | [-> | [-> | ->]]]]]; assumption.
  - intros [(Hy & Hm & Hd) Hb]. by apply generate_crime_id_agree.
Qed.

(** X10: The store accepts a second record under an identifier it already
    holds: both records stay, with the same ID, and the attachment index
    keeps under that ID only the paths of the later registration. *)
Theorem add_crime_same_id
    (form1 form2 : crime_form) (now1 now2 : datetime) (u1 u2 : uuid)
    (reg1 reg2 : datetime) (w : world) :
  submitted form1 = true → valid_form form1 →
  submitted form2 = true → valid_form form2 →
  file_upload form2 ≠ [] →
  generate_crime_id now1 u1 = generate_crime_id now2 u2 →
  let crime_id := generate_crime_id now1 u1 in
  let w2 :=
    (add_crime form2 now2 u2 reg2 (add_crime form1 now1 u1 reg1 w).1).1 in
  (∃ a b, crimes (session w2) = crimes (session w) ++ [a; b]
          ∧ ID a = crime_id ∧ ID b = crime_id)
  ∧ uploaded_files (session w2) !! crime_id
    = Some (map (fun up => upload_path crime_id (name up))
              (file_upload form2)).
Proof.
  intros Hs1 Hv1 Hs2 Hv2 Hup Hid crime_id w2. unfold w2.
  rewrite (add_crime_registered form2 _ _ _ _ Hs2 Hv2).
  rewrite (add_crime_registered form1 _ _ _ _ Hs1 Hv1).
  rewrite <- Hid. fold crime_id. cbn [session crimes uploaded_files].
  split.
  - eexists _, _. rewrite <- app_assoc. split; [reflexivity |].
    split; reflexivity.
  - destruct (file_upload form2); [done |]. by rewrite lookup_insert_eq.
Qed.

(** ** Incident dates: written by registration, read by the date filter *)




(** ** The query engine as a conjunction of filters *)

Lemma filter_andb {A} (f g : A → bool) (l : list A) :
  filter (fun x => g x = true) (filter (fun x => f x = true) l)
  = filter (fun x => f x && g x = true) l.
Proof.
  induction l as [| x l IH]; [done |].
  rewrite !filter_cons. destruct (f x) eqn:Ef, (g x) eqn:Eg;
    repeat case_decide; try done; rewrite ?filter_cons, ?Eg;
    repeat case_decide; try done; by rewrite IH.
Qed.

Lemma filter_if_nonempty {A} (sel : list string) (col : A → string)
    (l : list A) :
  (if nonempty sel then filter (fun r => isin (col r) sel = true) l else l)
  = filter (fun r => negb (nonempty sel) || isin (col r) sel = true) l.
Proof.
  destruct sel as [| s sel]; cbn [nonempty negb orb]; [| done].
  induction l as [| x l IH]; [done |].
  rewrite filter_cons. case_decide; [by rewrite <- IH | done].
Qed.


(** The steps of lines 186-204, before the date range. *)
Lemma apply_filters_eq search_text ct stf pf off date_range df :
  apply_filters search_text ct stf pf off date_range df
  = match (if Py.truthy search_text
           then match Re.compile search_text with
                | Some p => Ok (Some p)
                | None => Raise (outside_fragment search_text)
                end
           else Ok None) with
    | Raise e => Raise e
    | Ok p =>
        let rows := filter (fun r => selected p ct stf pf off [] r = true) df in
        match date_range with
        | [start_date; end_date] => filter_dates start_date end_date rows
        | _ => Ok rows
        end
    end.
Proof.
  unfold apply_filters.
  assert (Hcols : ∀ (p : option Re.pattern) (l : list crime_record),
            (let filtered_df :=
               if nonempty ct
               then filter (fun r => isin (Type_ r) ct = true) l else l in
             let filtered_df :=
               if nonempty stf
               then filter (fun r => isin (Status r) stf = true) filtered_df
               else filtered_df in
             let filtered_df :=
               if nonempty pf
               then filter (fun r => isin (Priority r) pf = true) filtered_df
               else filtered_df in
             if nonempty off
             then filter (fun r => isin (Officer r) off = true) filtered_df
             else filtered_df)
            = filter (fun r =>
                        (negb (nonempty ct) || isin (Type_ r) ct)
                        && (negb (nonempty stf) || isin (Status r) stf)
                        && (negb (nonempty pf) || isin (Priority r) pf)
                        && (negb (nonempty off) || isin (Officer r) off)
                        = true) l).
  { intros _ l. cbv zeta.
    rewrite (filter_if_nonempty ct Type_), (filter_if_nonempty stf Status),
      (filter_if_nonempty pf Priority), (filter_if_nonempty off Officer).
    rewrite !filter_andb. apply list_filter_iff. intros r.
    rewrite !andb_true_iff. tauto. }
  cbv zeta in Hcols. cbv zeta.
  destruct (Py.truthy search_text).
  - destruct (Re.compile search_text) as [p |]; [| done].
    cbn [mbind result_bind]. rewrite (Hcols None).
    rewrite (filter_andb (row_mask p)).
    assert (Hsel : filter (fun r => selected (Some p) ct stf pf off [] r = true)
                     df
                   = filter (fun r =>
                       row_mask p r
                       && ((negb (nonempty ct) || isin (Type_ r) ct)
                           && (negb (nonempty stf) || isin (Status r) stf)
                           && (negb (nonempty pf) || isin (Priority r) pf)
                           && (negb (nonempty off) || isin (Officer r) off))
                       = true) df).
    { apply list_filter_iff. intros r. unfold selected.
      rewrite andb_true_r, !andb_assoc. done. }
    by rewrite Hsel.
  - cbn [mbind result_bind]. rewrite (Hcols None).
    assert (Hsel : filter (fun r => selected None ct stf pf off [] r = true) df
                   = filter (fun r =>
                       (negb (nonempty ct) || isin (Type_ r) ct)
                       && (negb (nonempty stf) || isin (Status r) stf)
                       && (negb (nonempty pf) || isin (Priority r) pf)
                       && (negb (nonempty off) || isin (Officer r) off)
                       = true) df).
    { apply list_filter_iff. intros r. unfold selected.
      rewrite andb_true_r. done. }
    by rewrite Hsel.
Qed.









(** ** The letter case of the search text *)

Lemma prefix_ci_lower (s1 s2 t : string) :
  Py.lower s1 = Py.lower s2 → prefix_ci s1 t = prefix_ci s2 t.
Proof.
  unfold Py.lower. revert s2 t.
  induction s1 as [| a s1 IH]; intros [| b s2] t H; try done.
  simpl in H. injection H as Hab Hs.
  destruct t as [| c t]; [done |]. simpl. by rewrite Hab, (IH s2 t Hs).
Qed.

Lemma contains_cib_lower (s1 s2 t : string) :
  Py.lower s1 = Py.lower s2 → contains_cib s1 t = contains_cib s2 t.
Proof.
  intros H. induction t as [| c t IH]; simpl.
  - by rewrite (prefix_ci_lower s1 s2).
  - by rewrite (prefix_ci_lower s1 s2), IH.
Qed.

Lemma truthy_lower (s : string) : Py.truthy (Py.lower s) = Py.truthy s.
Proof. by destruct s. Qed.

(** X14: For search texts without special characters, only the letters count,
    not their case: two texts that agree once lower-cased select the same
    records, whatever the other filters are. *)
Theorem search_text_case_insensitive
    (s1 s2 : string) (ct stf pf off : list string) (date_range : list date)
    (df : list crime_record) :
  plain_text s1 = true → plain_text s2 = true →
  Py.lower s1 = Py.lower s2 →
  apply_filters s1 ct stf pf off date_range df
  = apply_filters s2 ct stf pf off date_range df.
Proof.
  intros Hp1 Hp2 Hl. rewrite !apply_filters_eq.
  rewrite (compile_literal s1 Hp1), (compile_literal s2 Hp2).
  rewrite <- (truthy_lower s1), <- (truthy_lower s2), Hl.
  destruct (Py.truthy (Py.lower s2)); [| done]. cbv zeta.
  assert (Hf : filter (fun r => selected (Some (literal_pattern s1))
                                  ct stf pf off [] r = true) df
               = filter (fun r => selected (Some (literal_pattern s2))
                                    ct stf pf off [] r = true) df).
  { apply list_filter_iff. intros r. unfold selected.
    rewrite !row_mask_literal. unfold literal_hitb.
    assert (He : existsb (fun kv => contains_cib s1 (str_value kv.2)) (items r)
                 = existsb (fun kv => contains_cib s2 (str_value kv.2))
                     (items r)).
    { induction (items r) as [| kv l IH]; [done |]. simpl.
      by rewrite (contains_cib_lower s1 s2 _ Hl), IH. }
    by rewrite He. }
  by rewrite Hf.
Qed.

(** ** The backup as a snapshot *)

Lemma json_of_record_inj (r1 r2 : crime_record) :
  json_of_record r1 = json_of_record r2 → r1 = r2.
Proof.
  destruct r1, r2. unfold json_of_record. cbn.
  intros H. injection H as -> -> -> -> -> -> -> -> -> -> ->. reflexivity.
Qed.

Lemma map_inj {A B} (f : A → B) (l1 l2 : list A) :
  (∀ x y, f x = f y → x = y) → map f l1 = map f l2 → l1 = l2.
Proof.
  intros Hf. revert l2.
  induction l1 as [| x l1 IH]; intros [| y l2] H; try done.
  injection H as Hxy Hl. by rewrite (Hf _ _ Hxy), (IH _ Hl).
Qed.

(** X16: Two stores produce the same backup at the same instant exactly when
    they hold the same records and the same officers, in the same order:
    the snapshot loses nothing of either and carries nothing of the
    attachment index. *)
Theorem backup_data_determines
    (now : datetime) (st1 st2 : session_state) :
  crimes st1 ≠ [] →
  backup_data now st1 = backup_data now st2
  ↔ crimes st1 = crimes st2 ∧ officers st1 = officers st2.
Proof.
  intros Hne. unfold backup_data. split.
  - destruct (crimes st1) as [| r1 rs1] eqn:E1; [done |].
    destruct (crimes st2) as [| r2 rs2] eqn:E2; [done |].
    generalize (r1 :: rs1), (r2 :: rs2). intros c1 c2 H.
    injection H as Hc Ho.
    split.
    + apply (map_inj json_of_record); [apply json_of_record_inj | done].
    + apply (map_inj JString); [| done]. by intros x y [= ->].
  - intros [-> ->]. reflexivity.
Qed.

(** ** After a clear *)

(** X17: Once the store is cleared, the view shows no case whatever the
    filters (an ill-formed search text included), the dashboard and the
    quick stats show nothing, and no backup is offered. *)
Theorem clear_all_data_hides_everything
    (st : session_state) (now : datetime) (search_text : string)
    (ct stf pf off : list string) (date_range : list date) :
  let st' := clear_all_data true true st in
  view_crimes search_text ct stf pf off date_range st' = Ok None
  ∧ crime_statistics st' = None
  ∧ crime_metrics st' = None
  ∧ quick_stats st' = None
  ∧ backup_data now st' = None.
Proof. repeat split. Qed.

(** ** Counts *)

Lemma filter_length_le {A} (P : A → Prop) `{∀ x, Decision (P x)}
    (l : list A) :
  (length (filter P l) <= length l)%nat.
Proof. apply sublist_length, sublist_filter. Qed.

Lemma filter_disjoint_length {A} (P Q : A → Prop)
    `{∀ x, Decision (P x)} `{∀ x, Decision (Q x)} (l : list A) :
  (∀ x, P x → Q x → False) →
  (length (filter P l) + length (filter Q l) <= length l)%nat.
Proof.
  intros Hd. induction l as [| x l IH]; [done |].
  rewrite !filter_cons. destruct (decide (P x)), (decide (Q x)); simpl;
    try lia. exfalso. eauto.
Qed.

Lemma open_closed_total (l : list crime_record) :
  (length (filter (fun r => Status r = "Open") l)
   + length (filter (fun r => Status r = "Closed") l))%nat = length l
  ↔ ∀ r, r ∈ l → Status r = "Open" ∨ Status r = "Closed".
Proof.
  induction l as [| r l IH].
  - split; [intros _ r Hr; by apply elem_of_nil in Hr | done].
  - rewrite !filter_cons.
    pose proof (filter_disjoint_length
                  (fun r => Status r = "Open") (fun r => Status r = "Closed")
                  l ltac:(intros ? ? ?; congruence)) as Hle.
    destruct (decide (Status r = "Open")) as [Ho | Ho],
      (decide (Status r = "Closed")) as [Hc | Hc];
      cbn [length]; try congruence.
    + split.
      * intros Hs r' [-> | Hr']%elem_of_cons; [by left |].
        apply IH; [lia | done].
      * intros Hall.
        assert (IH' : (length (filter (fun r => Status r = "Open") l)
                       + length (filter (fun r => Status r = "Closed") l))%nat
                      = length l).
        { apply IH. intros r' Hr'. apply Hall. set_solver. }
        lia.
    + split.
      * intros Hs r' [-> | Hr']%elem_of_cons; [by right |].
        apply IH; [lia | done].
      * intros Hall.
        assert (IH' : (length (filter (fun r => Status r = "Open") l)
                       + length (filter (fun r => Status r = "Closed") l))%nat
                      = length l).
        { apply IH. intros r' Hr'. apply Hall. set_solver. }
        lia.
    + split; [lia |].
      intros Hall. destruct (Hall r ltac:(set_solver)); done.
Qed.

(** X18: The quick stats appear exactly when the store is non-empty; the open
    and the closed cases are disjoint parts of the total, and they make up
    the total exactly when every case is open or closed. *)
Theorem quick_stats_counts (st : session_state) :
  match quick_stats st with
  | None => crimes st = []
  | Some (total, opened, closed) =>
      crimes st ≠ []
      ∧ total = length (crimes st)
      ∧ (opened + closed <= total)%nat
      ∧ ((opened + closed)%nat = total
         ↔ ∀ r, r ∈ crimes st → Status r = "Open" ∨ Status r = "Closed")
  end.
Proof.
  unfold quick_stats. destruct (crimes st) as [| r0 rs]; [done |].
  change (0 <? length (r0 :: rs))%nat with true. cbv iota zeta.
  split; [done |]. generalize (r0 :: rs). intros l.
  split; [done |]. split.
  - apply filter_disjoint_length. intros r H1 H2. congruence.
  - apply open_closed_total.
Qed.

(** ** Tables of counts *)

Lemma value_counts_cons (x : string) (l : list string) :
  value_counts (x :: l)
  = <[x := S (default 0%nat (value_counts l !! x))]> (value_counts l).
Proof. reflexivity. Qed.

Lemma value_counts_lookup (l : list string) (v : string) :
  value_counts l !! v
  = match occurrences v l with
    | O => None
    | S n => Some (S n)
    end.
Proof.
  unfold occurrences. induction l as [| x l IH]; [done |].
  rewrite value_counts_cons, filter_cons.
  destruct (decide (x = v)) as [-> | Hne].
  - rewrite lookup_insert_eq, IH. cbn [length].
    by destruct (length (filter (fun x => x = v) l)).
  - by rewrite lookup_insert_ne.
Qed.

Lemma sum_counts_insert (m : gmap string nat) (x : string) (n : nat) :
  (sum_counts (<[x := n]> m) + default 0 (m !! x) = n + sum_counts m)%nat.
Proof.
  unfold sum_counts.
  destruct (m !! x) as [c |] eqn:E.
  - rewrite <- (insert_delete_eq m x n).
    rewrite (map_fold_insert_L _ _ x n (delete x m));
      [| intros; lia | apply lookup_delete_eq].
    rewrite (map_fold_delete_L _ _ x c m); [simpl; lia | intros; lia | done].
  - rewrite (map_fold_insert_L _ _ x n m); [simpl; lia | intros; lia | done].
Qed.

Lemma sum_counts_value_counts (l : list string) :
  sum_counts (value_counts l) = length l.
Proof.
  induction l as [| x l IH]; [done |].
  rewrite value_counts_cons.
  pose proof (sum_counts_insert (value_counts l) x
                (S (default 0%nat (value_counts l !! x)))) as H.
  cbn [length]. lia.
Qed.

Lemma dom_value_counts (l : list string) :
  dom (value_counts l) = list_to_set l.
Proof.
  induction l as [| x l IH]; [apply dom_empty_L |].
  rewrite value_counts_cons, dom_insert_L, IH. done.
Qed.

Lemma length_unique_le (l : list string) : (length (unique l) <= length l)%nat.
Proof.
  apply submseteq_length, NoDup_submseteq; [apply unique_from_NoDup |].
  intros x. unfold unique. rewrite unique_from_elem_of. tauto.
Qed.

(** X19: A table of counts lists exactly the values that occur, each with the
    number of its occurrences, and its counts add up to the number of
    rows. *)
Theorem value_counts_table (l : list string) :
  (∀ v n, value_counts l !! v = Some n
          ↔ (0 < n)%nat ∧ n = occurrences v l)
  ∧ (∀ v, v ∈ dom (value_counts l) ↔ v ∈ l)
  ∧ sum_counts (value_counts l) = length l.
Proof.
  split; [| split].
  - intros v n. rewrite value_counts_lookup.
    destruct (occurrences v l); split; try done.
    + intros [? ?]. lia.
    + intros [= <-]. split; [lia | done].
    + intros [_ ->]. done.
  - intros v. rewrite dom_value_counts. apply elem_of_list_to_set.
  - apply sum_counts_value_counts.
Qed.

(** ** The dashboard *)

Lemma occurrences_map {A} (f : A → string) (v : string) (l : list A) :
  occurrences v (map f l) = length (filter (fun r => f r = v) l).
Proof.
  unfold occurrences. induction l as [| x l IH]; [done |].
  cbn [map]. rewrite !filter_cons.
  destruct (decide (f x = v)); cbn [length]; by rewrite IH.
Qed.

Lemma default_value_counts (v : string) (l : list string) :
  default 0%nat (value_counts l !! v) = occurrences v l.
Proof. rewrite value_counts_lookup. by destruct (occurrences v l). Qed.

Lemma inject_nat_pos (k : nat) : (0 < k)%nat → (0 < inject_Z (Z.of_nat k))%Q.
Proof. intros Hk. change 0%Q with (inject_Z 0). rewrite <- Zlt_Qlt. lia. Qed.

Lemma ratio_bounds (a b : nat) :
  (0 < b)%nat → (a <= b)%nat →
  (0 <= inject_Z (Z.of_nat a) / inject_Z (Z.of_nat b) * 100)%Q
  ∧ (inject_Z (Z.of_nat a) / inject_Z (Z.of_nat b) * 100 <= 100)%Q.
Proof.
  intros Hb Hab. pose proof (inject_nat_pos b Hb) as Hpos.
  assert (H0 : (0 <= inject_Z (Z.of_nat a) / inject_Z (Z.of_nat b))%Q).
  { apply Qle_shift_div_l; [done |]. rewrite Qmult_0_l.
    change 0%Q with (inject_Z 0). rewrite <- Zle_Qle. lia. }
  assert (H1 : (inject_Z (Z.of_nat a) / inject_Z (Z.of_nat b) <= 1)%Q).
  { apply Qle_shift_div_r; [done |]. rewrite Qmult_1_l.
    rewrite <- Zle_Qle. lia. }
  split.
  - apply Qmult_le_0_compat; [done | done].
  - apply Qle_trans with (1 * 100)%Q; [| by apply Qle_lteq; right].
    apply Qmult_le_compat_r; [done | done].
Qed.

Lemma average_bounds (n k : nat) :
  (0 < k)%nat → (k <= n)%nat →
  (1 <= inject_Z (Z.of_nat n) / inject_Z (Z.of_nat k))%Q
  ∧ (inject_Z (Z.of_nat n) / inject_Z (Z.of_nat k) <= inject_Z (Z.of_nat n))%Q.
Proof.
  intros Hk Hkn. pose proof (inject_nat_pos k Hk) as Hpos. split.
  - apply Qle_shift_div_l; [done |]. rewrite Qmult_1_l.
    rewrite <- Zle_Qle. lia.
  - apply Qle_shift_div_r; [done |]. rewrite <- inject_Z_mult.
    rewrite <- Zle_Qle. nia.
Qed.

(** X20: What the dashboard shows is consistent: each of the four tables adds
    up to the total number of cases; the open and the high-priority
    metrics are the entries Open and High of their tables; the open share
    lies between 0 and 100; the average per officer is the total over the
    number of rows of the officer table, at least 1 and at most the
    total. *)
Theorem crime_metrics_consistent (st : session_state) (m : metrics) :
  crime_metrics st = Some m →
  (0 < total_cases m)%nat
  ∧ total_cases m = length (crimes st)
  ∧ (sum_counts (status_counts m) = total_cases m
     ∧ sum_counts (priority_counts m) = total_cases m
     ∧ sum_counts (type_counts m) = total_cases m
     ∧ sum_counts (officer_counts m) = total_cases m)
  ∧ default 0%nat (status_counts m !! "Open") = open_cases m
  ∧ default 0%nat (priority_counts m !! "High") = high_priority m
  ∧ (0 <= open_delta m)%Q ∧ (open_delta m <= 100)%Q
  ∧ avg_cases m
    = (inject_Z (Z.of_nat (total_cases m))
       / inject_Z (Z.of_nat (size (officer_counts m))))%Q
  ∧ (1 <= avg_cases m)%Q
  ∧ (avg_cases m <= inject_Z (Z.of_nat (total_cases m)))%Q.
Proof.
  unfold crime_metrics. destruct (crimes st) as [| r0 rs]; [done |].
  unfold avg_cases_per_officer. cbv zeta.
  generalize (r0 :: rs) (length_cons r0 rs). intros df Hlen [= <-].
  cbn [total_cases open_cases open_delta high_priority avg_cases
         status_counts priority_counts type_counts officer_counts].
  assert (Hpos : (0 < length df)%nat) by lia.
  assert (Hsize : size (value_counts (map Officer df))
                  = length (unique (map Officer df))).
  { rewrite length_unique, <- dom_value_counts. symmetry. apply size_dom. }
  assert (Hk : (0 < length (unique (map Officer df)))%nat).
  { rewrite length_unique. destruct df as [| r df]; [simpl in Hpos; lia |].
    cbn [map list_to_set]. rewrite size_union_alt, size_singleton. lia. }
  assert (Hkn : (length (unique (map Officer df)) <= length df)%nat).
  { pose proof (length_unique_le (map Officer df)) as Hle.
    by rewrite length_map in Hle. }
  assert (Havg : (if (0 <? length (unique (map Officer df)))%nat
                  then (inject_Z (Z.of_nat (length df))
                        / inject_Z (Z.of_nat
                                      (length (unique (map Officer df)))))%Q
                  else 0%Q)
                 = (inject_Z (Z.of_nat (length df))
                    / inject_Z (Z.of_nat (length (unique (map Officer df)))))%Q).
  { by destruct (Nat.ltb_spec 0 (length (unique (map Officer df)))); [| lia]. }
  split; [done |]. split; [done |]. split.
  { rewrite !sum_counts_value_counts, !length_map. done. }
  split; [by rewrite default_value_counts, occurrences_map |].
  split; [by rewrite default_value_counts, occurrences_map |].
  destruct (ratio_bounds (length (filter (fun r => Status r = "Open") df))
              (length df) Hpos (filter_length_le _ _)) as [Hr0 Hr1].
  split; [done |]. split; [done |].
  rewrite Hsize, Havg. split; [done |].
  apply average_bounds; done.
Qed.

(** ** The further properties at concrete inputs *)

Lemma add_officer_registers_witness :
  "Officer Lee" ≠ ""
  ∧ NoDup (officers new_session)
  ∧ "Officer Lee" ∈ officers (add_officer true "Officer Lee" new_session).1
  ∧ NoDup (officers (add_officer true "Officer Lee" new_session).1).
Proof.
  assert (Hnd : NoDup (officers new_session)).
  { apply (bool_decide_unpack _). by vm_compute. }
  split; [discriminate | split; [exact Hnd |]].
  destruct (add_officer_registers "Officer Lee" new_session
              ltac:(discriminate) Hnd) as (Hin & Hnd' & _).
  split; [exact Hin | exact Hnd'].
Defined.

Lemma run_records_validated_witness :
  sample_record
  ∈ crimes (session (run [SubmitCase sample_form sample_now sample_uuid
                            sample_now] (start empty_disk)))
  ∧ rule F_description (Type_ sample_record) (Location sample_record)
      (Officer sample_record) (Description sample_record).
Proof.
  assert (Hin : sample_record
                ∈ crimes (session (run [SubmitCase sample_form sample_now
                                          sample_uuid sample_now]
                                     (start empty_disk)))).
  { apply list_elem_of_singleton. reflexivity. }
  split; [exact Hin |].
  apply (run_records_validated _ _ _ F_description Hin).
Defined.

Lemma run_index_consistent_witness :
  uploaded_files (session (run evidence_run (start empty_disk)))
    !! "CASE-20240307-ABCDEF"
  = Some ["uploads/CASE-20240307-ABCDEF_photo.jpg";
          "uploads/CASE-20240307-ABCDEF_report.txt"]
  ∧ "uploads" ∈ dirs (disk (run evidence_run (start empty_disk)))
  ∧ is_Some (files (disk (run evidence_run (start empty_disk)))
               !! "uploads/CASE-20240307-ABCDEF_report.txt").
Proof.
  assert (Hidx : uploaded_files (session (run evidence_run (start empty_disk)))
                   !! "CASE-20240307-ABCDEF"
                 = Some ["uploads/CASE-20240307-ABCDEF_photo.jpg";
                         "uploads/CASE-20240307-ABCDEF_report.txt"])
    by (by vm_compute).
  split; [exact Hidx |].
  pose proof (run_index_consistent evidence_run empty_disk
                "CASE-20240307-ABCDEF"
                ["uploads/CASE-20240307-ABCDEF_photo.jpg";
                 "uploads/CASE-20240307-ABCDEF_report.txt"]) as H.
  cbv zeta in H. destruct (H Hidx) as (_ & Hd & Hf).
  split; [exact Hd |].
  apply Hf. apply list_elem_of_further, list_elem_of_here.
Defined.

Lemma add_crime_appends_witness :
  submitted sample_form = true
  ∧ valid_form sample_form
  ∧ ∃ r, crimes (session (add_crime sample_form sample_now sample_uuid
                            sample_now sample_world).1)
         = crimes (session sample_world) ++ [r]
         ∧ Files r = N.of_nat (length (file_upload sample_form)).
Proof.
  split; [reflexivity | split; [reflexivity |]].
  destruct (add_crime_appends sample_form sample_now sample_uuid sample_now
              sample_world eq_refl eq_refl)
    as (r & Hr & _ & _ & _ & Hf & _).
  exists r. split; [exact Hr | exact Hf].
Defined.

Lemma add_crime_stores_uploads_witness :
  submitted evidence_form = true
  ∧ valid_form evidence_form
  ∧ file_upload evidence_form ≠ []
  ∧ "uploads"
    ∈ dirs (disk (add_crime evidence_form sample_now sample_uuid sample_now
                    sample_world).1).
Proof.
  split; [reflexivity | split; [reflexivity | split; [discriminate |]]].
  apply (add_crime_stores_uploads evidence_form sample_now sample_uuid
           sample_now sample_world eq_refl eq_refl ltac:(discriminate)).
Defined.

Lemma add_crime_without_uploads_witness :
  submitted sample_form = true
  ∧ valid_form sample_form
  ∧ file_upload sample_form = []
  ∧ disk (add_crime sample_form sample_now sample_uuid sample_now
            sample_world).1
    = disk sample_world.
Proof.
  split; [reflexivity | split; [reflexivity | split; [reflexivity |]]].
  apply (add_crime_without_uploads sample_form sample_now sample_uuid
           sample_now sample_world eq_refl eq_refl eq_refl).
Defined.

Lemma generate_crime_id_coincide_witness :
  datetime_ok sample_now = true ∧ 1000 <= year sample_now
  ∧ generate_crime_id sample_now sample_uuid
    = generate_crime_id sample_now (sample_uuid + 1).
Proof.
  split; [reflexivity | split; [by vm_compute |]].
  apply (generate_crime_id_coincide sample_now sample_now sample_uuid
           (sample_uuid + 1));
    [reflexivity | by vm_compute | reflexivity | by vm_compute |].
  split; [done | by vm_compute].
Defined.

Lemma add_crime_same_id_witness :
  generate_crime_id sample_now sample_uuid
  = generate_crime_id sample_now (sample_uuid + 1)
  ∧ uploaded_files
      (session
         (add_crime evidence_form sample_now (sample_uuid + 1) sample_now
            (add_crime evidence_form sample_now sample_uuid sample_now
               sample_world).1).1)
    !! generate_crime_id sample_now sample_uuid
    = Some (map (fun up => upload_path
                             (generate_crime_id sample_now sample_uuid)
                             (name up))
              (file_upload evidence_form)).
Proof.
  assert (Hid : generate_crime_id sample_now sample_uuid
                = generate_crime_id sample_now (sample_uuid + 1))
    by (by vm_compute).
  split; [exact Hid |].
  apply (add_crime_same_id evidence_form evidence_form sample_now sample_now
           sample_uuid (sample_uuid + 1) sample_now sample_now sample_world
           eq_refl eq_refl eq_refl eq_refl ltac:(discriminate) Hid).
Defined.




Lemma search_text_case_insensitive_witness :
  plain_text "BICYCLE" = true ∧ plain_text "bicycle" = true
  ∧ Py.lower "BICYCLE" = Py.lower "bicycle"
  ∧ apply_filters "BICYCLE" [] [] [] [] [] four_records
    = apply_filters "bicycle" [] [] [] [] [] four_records.
Proof.
  split; [reflexivity | split; [reflexivity | split; [reflexivity |]]].
  apply (search_text_case_insensitive "BICYCLE" "bicycle" [] [] [] [] []
           four_records eq_refl eq_refl eq_refl).
Defined.

Lemma backup_data_determines_witness :
  crimes sample_state ≠ []
  ∧ backup_data sample_now sample_state
    = backup_data sample_now
        {| crimes := crimes sample_state;
           uploaded_files := {["CASE-20240307-ABCDEF" := ["uploads/x"]]};
           officers := officers sample_state |}.
Proof.
  split; [discriminate |].
  apply (backup_data_determines sample_now sample_state _ ltac:(discriminate)).
  split; reflexivity.
Defined.

Lemma crime_metrics_consistent_witness :
  match crime_metrics sample_state with
  | Some m =>
      sum_counts (status_counts m) = total_cases m
      ∧ (1 <= avg_cases m)%Q
  | None => False
  end.
Proof.
  destruct (crime_metrics sample_state) as [m |] eqn:E.
  - destruct (crime_metrics_consistent sample_state m E)
      as (_ & _ & (Hs & _) & _ & _ & _ & _ & _ & Hlo & _).
    split; [exact Hs | exact Hlo].
  - discriminate E.
Defined.
